(** * Real-Time-Stock-Monitor: the price-alert logic

    A shallow embedding of the alerting code of the dashboard scripts:

    - [AppCode]: [appcode.py], the e-mail alert dashboard (session state,
      [fetch_intraday], [send_email], the "Set Alert", "Remove all
      alerts" and "Clear alert history" buttons, the runs of the script
      and [check_alerts_and_notify]);
    - [DataPy]: [data.py], the simpler Alpha Vantage dashboard
      ([check_alerts], its "Set Alert" and "Clear All Alerts" buttons).

    Prices are Python floats, hence IEEE-754 binary64 numbers: they are
    modelled by Rocq's primitive floats and compared with [PrimFloat.leb]
    and [PrimFloat.ltb].  Everything outside the process (Yahoo Finance,
    the SMTP server, the clock, number formatting) is an oracle of a
    [World]; the oracles are indexed by the number of external
    interactions made so far, so that two calls may answer differently.
    The list of alerts is a shared mutable object: the loop of
    [check_alerts_and_notify] is modelled by index, with updates in
    place. *)

From Stdlib Require Import List String Ascii ZArith Bool Arith Lia Floats
  FinFun.
Import ListNotations.

Set Implicit Arguments.
Local Open Scope string_scope.
Local Open Scope list_scope.

(** ** Python helpers *)

Module Py.

(** [x >= y], [x <= y] and [x > y] on floats (false on NaN). *)
Definition ge (x y : float) : bool := PrimFloat.leb y x.
Definition le (x y : float) : bool := PrimFloat.leb x y.
Definition gt (x y : float) : bool := PrimFloat.ltb y x.

(** Truth value of a [str]: the empty string is falsy. *)
Definition truthy (s : string) : bool :=
  match s with
  | EmptyString => false
  | String _ _ => true
  end.

(** The newline of ["\n"]. *)
Definition nl : string := String (ascii_of_nat 10) EmptyString.

(** [l[i] = x] on a list; [i] is in range wherever the code uses it. *)
Fixpoint setitem {A : Type} (i : nat) (x : A) (l : list A) : list A :=
  match l, i with
  | [], _ => []
  | _ :: r, O => x :: r
  | y :: r, S j => y :: setitem j x r
  end.

(** f-string concatenation. *)
Fixpoint fstr (parts : list string) : string :=
  match parts with
  | [] => EmptyString
  | p :: r => String.append p (fstr r)
  end.

End Py.

(** ** appcode.py *)

Module AppCode.

(** *** Data *)

(** The two labels of the "Alert type" radio button. *)
Definition RisesTo : string := "Price rises to target".
Definition FallsTo : string := "Price falls to target".

(** An element of [st.session_state.alerts]; the key ["triggered_at"] is
    absent until the alert fires. *)
Record Alert : Type := mkAlert {
  id : Z;
  symbol : string;
  target_price : float;
  alert_type : string;
  recipient_email : string;
  triggered : bool;
  created_at : string;
  triggered_at : option string
}.

(** An element of [st.session_state.alert_history]. *)
Record HistoryRecord : Type := mkRecord {
  rec_id : Z;
  rec_symbol : string;
  rec_target_price : float;
  rec_actual_price : float;
  rec_alert_type : string;
  rec_recipient_email : string;
  rec_triggered_at : string
}.

(** A row of the frame returned by [yf.download]. *)
Record Row : Type := mkRow {
  Open : float;
  High : float;
  Low : float;
  Close : float;
  Volume : float
}.

Definition DataFrame : Type := list Row.

(** What a call of [yf.download] does. *)
Inductive Download : Type :=
| Raised (e : string)
| NotAFrame
| Frame (df : DataFrame).

(** The outside world: [yf_download t tickers period interval] is what
    [yf.download] does at the moment [t]; [utcnow_isoformat t] is
    [datetime.utcnow().isoformat()] at the moment [t];
    [smtp_session t recipient subject body] is the SMTP session of
    [send_email] at the moment [t], [None] when it raises nothing and
    [Some e] with [e] the text of the exception otherwise; [format_2f] is
    the format specification [:.2f]. *)
Record World : Type := mkWorld {
  yf_download : nat -> string -> string -> string -> Download;
  utcnow_isoformat : nat -> string;
  smtp_session : nat -> string -> string -> string -> option string;
  format_2f : float -> string
}.

(** What the script shows or sends; [smtp_send] stands for the call of
    [send_email], whatever becomes of its SMTP session. *)
Inductive Effect : Type :=
| st_error (msg : string)
| st_warning (msg : string)
| st_success (msg : string)
| st_toast (msg : string)
| smtp_send (recipient subject body : string).

(** [st.session_state], with the number of external interactions made so
    far and the effects produced so far (oldest first). *)
Record State : Type := mkState {
  alerts : list Alert;
  alert_history : list HistoryRecord;
  running : bool;
  ticks : nat;
  effects : list Effect
}.

(** [session_state] of a fresh session (lines 29-40). *)
Definition init : State :=
  {| alerts := []; alert_history := []; running := false;
     ticks := 0; effects := [] |}.

Definition with_alerts (l : list Alert) (s : State) : State :=
  {| alerts := l; alert_history := alert_history s; running := running s;
     ticks := ticks s; effects := effects s |}.

Definition with_alert_history (h : list HistoryRecord) (s : State) : State :=
  {| alerts := alerts s; alert_history := h; running := running s;
     ticks := ticks s; effects := effects s |}.

Definition with_running (b : bool) (s : State) : State :=
  {| alerts := alerts s; alert_history := alert_history s; running := b;
     ticks := ticks s; effects := effects s |}.

Definition tick (s : State) : State :=
  {| alerts := alerts s; alert_history := alert_history s;
     running := running s; ticks := S (ticks s); effects := effects s |}.

Definition emit (e : Effect) (s : State) : State :=
  {| alerts := alerts s; alert_history := alert_history s;
     running := running s; ticks := ticks s;
     effects := effects s ++ [e] |}.

(** *** Utility functions *)

Definition is_nan (x : float) : bool := negb (PrimFloat.eqb x x).

Definition all_nan (r : Row) : bool :=
  is_nan (Open r) && is_nan (High r) && is_nan (Low r)
  && is_nan (Close r) && is_nan (Volume r).

(** [df.dropna(how="all")] *)
Definition dropna_all (df : DataFrame) : DataFrame :=
  filter (fun r => negb (all_nan r)) df.

(** [df.empty] *)
Definition empty (df : DataFrame) : bool :=
  match df with
  | [] => true
  | _ :: _ => false
  end.

(** The frame [fetch_intraday] returns for a given answer of
    [yf.download] (lines 47-53). *)
Definition frame_of (d : Download) : DataFrame :=
  match d with
  | Frame df => if negb (empty df) then dropna_all df else []
  | NotAFrame => []
  | Raised _ => []
  end.

(** [fetch_intraday(symbol, period, interval)] (lines 45-53). *)
Definition fetch_intraday (w : World) (symbol period interval : string)
    (s : State) : DataFrame * State :=
  let d := yf_download w (ticks s) symbol period interval in
  let s1 := tick s in
  match d with
  | Raised e =>
      (frame_of d,
       emit (st_error (Py.fstr ["Error fetching "; symbol; ": "; e])) s1)
  | _ => (frame_of d, s1)
  end.

(** [send_email(recipient_email, subject, body)] (lines 87-101). *)
Definition send_email (w : World) (recipient subject body : string)
    (s : State) : (bool * option string) * State :=
  let s1 := tick (emit (smtp_send recipient subject body) s) in
  match smtp_session w (ticks s) recipient subject body with
  | None => ((true, None), s1)
  | Some e => ((false, Some e), s1)
  end.

(** *** The buttons *)

(** The body of [if st.button("Set Alert", ...)] (lines 196-210). *)
Definition set_alert (w : World) (symbol alert_email : string)
    (alert_price : float) (alert_type : string) (s : State) : State :=
  if Py.truthy alert_email && Py.gt alert_price 0 then
    let alert_record :=
      {| id := Z.of_nat (List.length (alerts s)) + 1;
         symbol := symbol;
         target_price := alert_price;
         alert_type := alert_type;
         recipient_email := alert_email;
         triggered := false;
         created_at := utcnow_isoformat w (ticks s);
         triggered_at := None |} in
    let s1 := with_alerts (alerts s ++ [alert_record]) (tick s) in
    emit (st_success
            (Py.fstr ["Alert set for "; symbol; " at $";
                      format_2f w alert_price; " ("; alert_type; ") to ";
                      alert_email])) s1
  else
    emit (st_warning "Enter valid email and price.") s.

(** [if c1.button("Remove all alerts")] (lines 260-266): the button exists
    only while the list is not empty. *)
Definition remove_all_alerts (s : State) : State :=
  if negb (Nat.eqb (List.length (alerts s)) 0) then
    emit (st_success "All alerts removed.") (with_alerts [] s)
  else s.

(** [if c2.button("Clear alert history")] (lines 260-269). *)
Definition clear_alert_history (s : State) : State :=
  if negb (Nat.eqb (List.length (alerts s)) 0) then
    emit (st_success "Alert history cleared.") (with_alert_history [] s)
  else s.

(** *** The monitoring loop *)

(** The test of lines 296-301. *)
Definition trigger_of (alert : Alert) (latest_price : float) : bool :=
  if String.eqb (alert_type alert) RisesTo
     && Py.ge latest_price (target_price alert) then true
  else if String.eqb (alert_type alert) FallsTo
          && Py.le latest_price (target_price alert) then true
  else false.

(** [latest_df["Close"].iloc[-1]] of a frame that is not empty. *)
Definition last_close (df : DataFrame) : option float :=
  option_map Close (last (map Some df) None).

(** [alert["triggered"] = True] and [alert["triggered_at"] = ...]. *)
Definition set_triggered (alert : Alert) : Alert :=
  {| id := id alert; symbol := symbol alert;
     target_price := target_price alert; alert_type := alert_type alert;
     recipient_email := recipient_email alert; triggered := true;
     created_at := created_at alert; triggered_at := triggered_at alert |}.

Definition set_triggered_at (now : string) (alert : Alert) : Alert :=
  {| id := id alert; symbol := symbol alert;
     target_price := target_price alert; alert_type := alert_type alert;
     recipient_email := recipient_email alert;
     triggered := triggered alert;
     created_at := created_at alert; triggered_at := Some now |}.

(** The dictionary [record] of lines 306-314, built from the alert as it
    is after lines 304-305. *)
Definition history_record (alert : Alert) (latest_price : float)
    : HistoryRecord :=
  {| rec_id := id alert;
     rec_symbol := symbol alert;
     rec_target_price := target_price alert;
     rec_actual_price := latest_price;
     rec_alert_type := alert_type alert;
     rec_recipient_email := recipient_email alert;
     rec_triggered_at :=
       match triggered_at alert with
       | Some t => t
       | None => EmptyString
       end |}.

Definition toast_text (w : World) (alert : Alert) (latest_price : float)
    : string :=
  Py.fstr ["ALERT: "; symbol alert; " "; alert_type alert;
           " — Current $"; format_2f w latest_price].

Definition email_subject (alert : Alert) : string :=
  Py.fstr ["Stock Alert: "; symbol alert; " "; alert_type alert].

Definition email_body (w : World) (alert : Alert) (latest_price : float)
    : string :=
  Py.fstr ["Your alert for "; symbol alert; " was triggered."; Py.nl;
           "Target: $"; format_2f w (target_price alert); Py.nl;
           "Current: $"; format_2f w latest_price; Py.nl;
           "Time (UTC): ";
           match triggered_at alert with
           | Some t => t
           | None => EmptyString
           end].

(** Lines 304-316: the alert at index [i] of the list is marked in place,
    its history record is appended and the toast is shown. *)
Definition fire (w : World) (i : nat) (alert : Alert)
    (latest_price : float) (s : State) : State :=
  let s1 := with_alerts (Py.setitem i (set_triggered alert) (alerts s)) s in
  let now := utcnow_isoformat w (ticks s1) in
  let alert1 := set_triggered_at now (set_triggered alert) in
  let s2 := with_alerts (Py.setitem i alert1 (alerts s1)) (tick s1) in
  let record := history_record alert1 latest_price in
  let s3 := with_alert_history (alert_history s2 ++ [record]) s2 in
  emit (st_toast (toast_text w alert1 latest_price)) s3.

(** Lines 318-323: the e-mail, sent for the alert as it now is in the
    list, and the message about its outcome. *)
Definition notify (w : World) (i : nat) (latest_price : float)
    (s : State) : State :=
  match nth_error (alerts s) i with
  | None => s
  | Some alert =>
      let subject := email_subject alert in
      let body := email_body w alert latest_price in
      let '((success, err), s1) :=
        send_email w (recipient_email alert) subject body s in
      if success then
        emit (st_success
                (Py.fstr ["Email sent to "; recipient_email alert])) s1
      else
        emit (st_error
                (Py.fstr ["Failed sending email: ";
                          match err with
                          | Some e => e
                          | None => "None"
                          end])) s1
  end.

(** One iteration of the [for] loop of [check_alerts_and_notify]
    (lines 289-323), for the element at index [i]. *)
Definition check_alert (w : World) (i : nat) (s : State) : State :=
  match nth_error (alerts s) i with
  | None => s
  | Some alert =>
      if triggered alert then s
      else
        let '(latest_df, s1) :=
          fetch_intraday w (symbol alert) "2d" "5m" s in
        if empty latest_df then s1
        else
          match last_close latest_df with
          | None => s1
          | Some latest_price =>
              if trigger_of alert latest_price then
                notify w i latest_price (fire w i alert latest_price s1)
              else s1
          end
  end.

(** [check_alerts_and_notify()] (lines 287-323): the list iterator visits
    the indices of the list in order. *)
Definition check_alerts_and_notify (w : World) (s : State) : State :=
  fold_left (fun s i => check_alert w i s) (seq 0 (List.length (alerts s))) s.

(** [n] evaluation cycles in a row. *)
Fixpoint cycles (w : World) (n : nat) (s : State) : State :=
  match n with
  | O => s
  | S k => cycles w k (check_alerts_and_notify w s)
  end.

(** *** One run of the script *)

(** The two choices of the "Alert type" radio button (line 194). *)
Inductive Radio : Type :=
| rises
| falls.

Definition label (r : Radio) : string :=
  match r with
  | rises => RisesTo
  | falls => FallsTo
  end.

(** What the user did to cause the run: at most one button is down. *)
Inductive Click : Type :=
| NoClick
| StartMonitoring
| StopMonitoring
| SetAlert (alert_email : string) (alert_price : float) (alert_type : Radio)
| RemoveAllAlerts
| ClearAlertHistory.

(** The widgets of one run: the symbol selected in the first tab, the
    symbol, period and interval of the second tab, and the button. *)
Record Widgets : Type := mkWidgets {
  symbol_select : string;
  hist_symbol : string;
  hist_period : string;
  hist_interval : string;
  click : Click
}.

(** The sidebar buttons (lines 138-141) and the first tab (lines
    171-210), as far as the alerts are concerned.  The charts, the
    watchlist, [auto_refresh] and [last_refresh], which the alert logic
    never reads, are left out. *)
Definition first_tabs (w : World) (u : Widgets) (s : State) : State :=
  let s1 :=
    match click u with
    | StartMonitoring => with_running true s
    | StopMonitoring => with_running false s
    | _ => s
    end in
  let '(data, s2) := fetch_intraday w (symbol_select u) "7d" "5m" s1 in
  if empty data then
    emit (st_warning
            "No data found for symbol. Check symbol or try again.") s2
  else
    match click u with
    | SetAlert alert_email alert_price alert_type =>
        set_alert w (symbol_select u) alert_email alert_price
          (label alert_type) s2
    | _ => s2
    end.

(** The buttons of the third tab (lines 260-269). *)
Definition alerts_tab (c : Click) (s : State) : State :=
  match c with
  | RemoveAllAlerts => remove_all_alerts s
  | ClearAlertHistory => clear_alert_history s
  | _ => s
  end.

(** The monitoring block (lines 325-326). *)
Definition monitoring (w : World) (s : State) : State :=
  if running s then check_alerts_and_notify w s else s.

(** One run of the script.  The download of the second tab (line 240)
    stands outside any [try]: if it raises, the run stops there, before
    the third tab and the monitoring block. *)
Definition rerun (w : World) (u : Widgets) (s : State) : State :=
  let s3 := first_tabs w u s in
  match yf_download w (ticks s3) (hist_symbol u) (hist_period u)
          (hist_interval u) with
  | Raised _ => tick s3
  | _ => monitoring w (alerts_tab (click u) (tick s3))
  end.

(** A session: the runs of the script, oldest first. *)
Fixpoint session (w : World) (runs : list Widgets) (s : State) : State :=
  match runs with
  | [] => s
  | u :: r => session w r (rerun w u s)
  end.

(** *** Counting *)

Definition is_toast (e : Effect) : bool :=
  match e with
  | st_toast _ => true
  | _ => false
  end.

Definition is_mail (e : Effect) : bool :=
  match e with
  | smtp_send _ _ _ => true
  | _ => false
  end.

(** The history records carrying a given id. *)
Definition notified (i : Z) (h : list HistoryRecord) : nat :=
  List.length (filter (fun r => Z.eqb (rec_id r) i) h).

(** The alerts carrying a given id that have not fired yet. *)
Definition pending (i : Z) (l : list Alert) : nat :=
  List.length
    (filter (fun a => Z.eqb (id a) i && negb (triggered a)) l).

End AppCode.

(** ** data.py *)

Module DataPy.

(** An element of [st.session_state.alerts] (line 32). *)
Record Alert : Type := mkAlert {
  symbol : string;
  price : float;
  email : string;
  time : string
}.

(** What the script shows. *)
Inductive Effect : Type :=
| st_success (msg : string)
| st_warning (msg : string).

(** [st.session_state] and the messages shown so far (oldest first). *)
Record State : Type := mkState {
  alerts : list Alert;
  effects : list Effect
}.

Definition init : State := {| alerts := []; effects := [] |}.

Definition emit (e : Effect) (s : State) : State :=
  {| alerts := alerts s; effects := effects s ++ [e] |}.

(** The [for] loop of [check_alerts] (lines 67-69), with the list
    [triggered] built so far. *)
Fixpoint check_alerts_loop (l : list Alert) (symbol0 : string)
    (current_price : float) (triggered : list Alert) : list Alert :=
  match l with
  | [] => triggered
  | alert :: r =>
      if String.eqb (symbol alert) symbol0
         && Py.ge current_price (price alert)
      then check_alerts_loop r symbol0 current_price (triggered ++ [alert])
      else check_alerts_loop r symbol0 current_price triggered
  end.

(** [check_alerts(symbol, current_price)] (lines 65-70), returning its
    result and the session state it leaves. *)
Definition check_alerts (symbol0 : string) (current_price : float)
    (s : State) : list Alert * State :=
  (check_alerts_loop (alerts s) symbol0 current_price [], s).

(** [if st.button("Set Alert")] (lines 94-104); [now] is
    [datetime.now().strftime(...)] and [fmt] the format [:.2f]. *)
Definition set_alert (fmt : float -> string) (now : string)
    (stock_symbol : string) (alert_price : float) (user_email : string)
    (s : State) : State :=
  if Py.gt alert_price 0 then
    emit (st_success
            (Py.fstr ["Alert set for "; stock_symbol; " at $";
                      fmt alert_price]))
         {| alerts := alerts s ++
              [ {| symbol := stock_symbol; price := alert_price;
                   email := user_email; time := now |} ];
            effects := effects s |}
  else
    emit (st_warning "Please set a valid alert price.") s.

(** [if st.button("Clear All Alerts")] (lines 134-139). *)
Definition clear_all_alerts (s : State) : State :=
  match alerts s with
  | [] => s
  | _ :: _ =>
      emit (st_success "All alerts cleared!")
           {| alerts := []; effects := effects s |}
  end.

(** The message of line 109. *)
Definition reached_text (fmt : float -> string) (alert : Alert)
    (current_price : float) : string :=
  Py.fstr ["🚨 "; symbol alert; " reached $"; fmt current_price;
           "! Alert set at $"; fmt (price alert)].

(** Lines 106-109 of a run whose symbol has the price [current_price]. *)
Definition check_triggered (fmt : float -> string) (stock_symbol : string)
    (current_price : float) (s : State) : State :=
  let '(triggered, s1) := check_alerts stock_symbol current_price s in
  fold_left
    (fun s alert => emit (st_success (reached_text fmt alert current_price)) s)
    triggered s1.

(** What [check_alerts] is said to return: the alerts whose symbol is the
    given one and whose stored price is less than or equal to the current
    price, in the order of the list. *)
Definition selected (symbol0 : string) (current_price : float)
    (l : list Alert) : list Alert :=
  filter (fun a => String.eqb (symbol a) symbol0
                   && Py.le (price a) current_price) l.

End DataPy.

(** ** Observations and example worlds *)

Module Obs.
Import AppCode.

(** The alert as lines 304-305 leave it. *)
Definition fired (now : string) (alert : Alert) : Alert :=
  set_triggered_at now (set_triggered alert).

(** The [triggered] flag of the element at index [i]. *)
Definition triggered_in (i : nat) (s : State) : bool :=
  match nth_error (alerts s) i with
  | Some alert => triggered alert
  | None => false
  end.

(** The price an evaluation at the moment [t] fetches for a symbol. *)
Definition fetched (w : World) (t : nat) (symbol : string) : option float :=
  last_close (frame_of (yf_download w t symbol "2d" "5m")).

(** The price source fails for a symbol throughout. *)
Definition source_fails (w : World) (symbol : string) : Prop :=
  forall t period interval,
    frame_of (yf_download w t symbol period interval) = [].

(** The message about the outcome of the e-mail (lines 322-323). *)
Definition outcome_effect (alert : Alert) (r : option string) : Effect :=
  match r with
  | None => st_success (Py.fstr ["Email sent to "; recipient_email alert])
  | Some e => st_error (Py.fstr ["Failed sending email: "; e])
  end.

Definition toasts (s : State) : nat :=
  List.length (filter is_toast (effects s)).

Definition mails (s : State) : nat :=
  List.length (filter is_mail (effects s)).

(** Every record is kept in place, as it is or fired. *)
Definition keeps (s s' : State) : Prop :=
  forall i a,
    nth_error (alerts s) i = Some a ->
    exists a',
      nth_error (alerts s') i = Some a'
      /\ (a' = a \/ (triggered a = false /\ exists now, a' = fired now a)).

(** The ids of a list of alerts are 1, 2, ..., in this order. *)
Definition numbered (l : list Alert) : Prop :=
  map id l = map (fun k => Z.of_nat (S k)) (seq 0 (List.length l)).

(** The records created in the course of a sequence of runs: what the
    first tab of each run adds at the end of the list. *)
Fixpoint created (w : World) (runs : list Widgets) (s : State)
    : list Alert :=
  match runs with
  | [] => []
  | u :: r =>
      skipn (List.length (alerts s)) (alerts (first_tabs w u s))
      ++ created w r (rerun w u s)
  end.

(** The alerts that have not fired yet. *)
Definition untriggered (l : list Alert) : nat :=
  List.length (filter (fun a => negb (triggered a)) l).

(** A history record agrees with a triggered alert of the state: it has
    the id, symbol, target price, alert type and recipient of the alert,
    its time is the [triggered_at] of the alert, and its actual price was
    fetched for the symbol of the alert. *)
Definition agrees (w : World) (s : State) (r : HistoryRecord) : Prop :=
  exists i a,
    nth_error (alerts s) i = Some a
    /\ triggered a = true
    /\ rec_id r = id a
    /\ rec_symbol r = symbol a
    /\ rec_target_price r = target_price a
    /\ rec_alert_type r = alert_type a
    /\ rec_recipient_email r = recipient_email a
    /\ triggered_at a = Some (rec_triggered_at r)
    /\ exists t, fetched w t (symbol a) = Some (rec_actual_price r).

End Obs.

Module Examples.
Import AppCode.

Definition row (c : float) : Row :=
  {| Open := c; High := c; Low := c; Close := c; Volume := 1000 |}.

(** A source whose successive answers end with the given closing
    prices, and which then keeps giving the last of them. *)
Definition quotes (closes : list float) (t : nat) : Download :=
  Frame [row 100; row (nth t closes (last closes 0%float))].

Definition clock (t : nat) : string :=
  match t with
  | 0 => "2024-01-01T00:00:00"
  | 1 => "2024-01-01T00:00:01"
  | 2 => "2024-01-01T00:00:02"
  | 3 => "2024-01-01T00:00:03"
  | _ => "2024-01-01T00:01:00"
  end.

(** Every mail is delivered. *)
Definition w_seq (closes : list float) : World :=
  {| yf_download := fun t _ _ _ => quotes closes t;
     utcnow_isoformat := clock;
     smtp_session := fun _ _ _ _ => None;
     format_2f := fun _ => "#.##" |}.

(** The SMTP server refuses every session. *)
Definition w_smtp_down (closes : list float) : World :=
  {| yf_download := fun t _ _ _ => quotes closes t;
     utcnow_isoformat := clock;
     smtp_session := fun _ _ _ _ => Some "Connection refused";
     format_2f := fun _ => "#.##" |}.

(** Yahoo Finance raises for AAPL and answers 210.0 for anything else. *)
Definition w_aapl_down : World :=
  {| yf_download := fun _ symbol _ _ =>
       if String.eqb symbol "AAPL" then Raised "timed out"
       else Frame [row 210];
     utcnow_isoformat := clock;
     smtp_session := fun _ _ _ _ => None;
     format_2f := fun _ => "#.##" |}.

Definition aapl_150 : Alert :=
  {| id := 1; symbol := "AAPL"; target_price := 150.0;
     alert_type := RisesTo; recipient_email := "me@example.org";
     triggered := false; created_at := "2023-12-31T23:59:59";
     triggered_at := None |}.

Definition msft_200 : Alert :=
  {| id := 2; symbol := "MSFT"; target_price := 200;
     alert_type := RisesTo; recipient_email := "me@example.org";
     triggered := false; created_at := "2023-12-31T23:59:59";
     triggered_at := None |}.

Definition watching (l : list Alert) : State :=
  {| alerts := l; alert_history := []; running := true;
     ticks := 0; effects := [] |}.

(** data.py: an alert on AAPL at 150.00, with and without an e-mail. *)
Definition d_aapl_150 : DataPy.Alert :=
  {| DataPy.symbol := "AAPL"; DataPy.price := 150.0;
     DataPy.email := "me@example.org";
     DataPy.time := "2024-01-01 00:00:00" |}.

Definition d_watching (l : list DataPy.Alert) : DataPy.State :=
  {| DataPy.alerts := l; DataPy.effects := [] |}.

Definition fmt (x : float) : string := "#.##".

(** The widgets of a run with a button, both tabs on the same symbol. *)
Definition ui (sym : string) (c : Click) : Widgets :=
  {| symbol_select := sym; hist_symbol := sym; hist_period := "365d";
     hist_interval := "1d"; click := c |}.

End Examples.

(** ** appcode.py: the watchlist *)

Module Watchlist.

(** What the sidebar shows. *)
Inductive Effect : Type :=
| st_success (msg : string)
| st_info (msg : string).

(** [st.session_state.watchlist] and the messages shown so far. *)
Record State : Type := mkState {
  watchlist : list string;
  shown : list Effect
}.

(** Lines 29-30. *)
Definition init : State := {| watchlist := []; shown := [] |}.

(** [sym in l] *)
Fixpoint contains (sym : string) (l : list string) : bool :=
  match l with
  | [] => false
  | y :: r => String.eqb y sym || contains sym r
  end.

(** [l.remove(sym)]: the first element equal to [sym] is taken out;
    [None] stands for the [ValueError] raised when there is none. *)
Fixpoint list_remove (sym : string) (l : list string)
    : option (list string) :=
  match l with
  | [] => None
  | y :: r =>
      if String.eqb y sym then Some r
      else option_map (cons y) (list_remove sym r)
  end.

(** [if st.sidebar.button("Add to watchlist")] (lines 112-119);
    [normalize] is [strip().upper()]. *)
Definition add_to_watchlist (normalize : string -> string)
    (add_symbol : string) (s : State) : State :=
  let sym := normalize add_symbol in
  if Py.truthy sym then
    if negb (contains sym (watchlist s)) then
      {| watchlist := watchlist s ++ [sym];
         shown := shown s
                  ++ [st_success (Py.fstr ["Added "; sym; " to watchlist."])] |}
    else
      {| watchlist := watchlist s;
         shown := shown s
                  ++ [st_info (Py.fstr [sym; " already in watchlist."])] |}
  else s.

(** [if col2.button("Remove", key=f"rm_{s}")] (lines 124-129) for the
    symbol [sym]: the buttons are those of the symbols of the list; the
    run is restarted at once.  [None] stands for an uncaught
    [ValueError]. *)
Definition remove_clicked (sym : string) (s : State) : option State :=
  if contains sym (watchlist s) then
    match list_remove sym (watchlist s) with
    | Some l => Some {| watchlist := l; shown := shown s |}
    | None => None
    end
  else Some s.

(** The options of the select boxes (lines 164-167 and 231-233). *)
Definition options (s : State) : list string :=
  match watchlist s with
  | [] => ["AAPL"]
  | _ :: _ => watchlist s
  end.

(** What the user does in the sidebar. *)
Inductive Click : Type :=
| Add (add_symbol : string)
| Remove (sym : string).

Definition step (normalize : string -> string) (c : Click) (s : State)
    : option State :=
  match c with
  | Add add_symbol => Some (add_to_watchlist normalize add_symbol s)
  | Remove sym => remove_clicked sym s
  end.

(** A sequence of clicks, oldest first; [None] if one of them raises. *)
Fixpoint clicks (normalize : string -> string) (l : list Click) (s : State)
    : option State :=
  match l with
  | [] => Some s
  | c :: r =>
      match step normalize c s with
      | Some s1 => clicks normalize r s1
      | None => None
      end
  end.

(** The watchlist holds no symbol twice, and only non-empty results of
    [normalize]. *)
Definition tidy (normalize : string -> string) (l : list string) : Prop :=
  NoDup l
  /\ Forall (fun y => Py.truthy y = true /\ exists x, y = normalize x) l.

End Watchlist.

(** ** data.py: the first tab *)

Module DataRun.
Import DataPy.

(** [data['Close'][-1]] of a frame that is not empty. *)
Definition current_price_of (closes : list float) : option float :=
  last (map Some closes) None.

(** Lines 86-111, for the frame that [fetch_stock_data] returned, given by
    its column [Close] (empty for the empty frame): the "Set Alert" button
    and the check of the alerts.  The metric and the chart, which do not
    touch the alerts, are left out. *)
Definition live_monitor (fmt : float -> string) (now : string)
    (stock_symbol : string) (alert_price : float) (user_email : string)
    (closes : list float) (set_alert_clicked : bool) (s : State) : State :=
  if Py.truthy stock_symbol then
    match current_price_of closes with
    | Some current_price =>
        let s1 :=
          if set_alert_clicked then
            set_alert fmt now stock_symbol alert_price user_email s
          else s in
        check_triggered fmt stock_symbol current_price s1
    | None => emit (st_warning "No data found for this stock symbol.") s
    end
  else s.

(** The messages of line 109. *)
Definition is_reached (fmt : float -> string) (current_price : float)
    (l : list Alert) : list Effect :=
  map (fun alert => st_success (reached_text fmt alert current_price)) l.

End DataRun.

(** ** app_alpha.py *)

Module AppAlpha.

(** What a call of [fetch_data] does: it raises, or returns a frame, given
    by its column [Close]. *)
Inductive Fetched : Type :=
| Raised (e : string)
| Closes (l : list float).

(** The outside world: [fetch_data k symbol api_key] at the [k]-th pass of
    the loop; [notify k], the outcome of [notification.notify] at that
    pass, [Some e] when it raises; [format_2f], the format [:.2f]. *)
Record World : Type := mkWorld {
  fetch_data : nat -> string -> string -> Fetched;
  notify : nat -> option string;
  format_2f : float -> string
}.

(** What the script shows. *)
Inductive Effect : Type :=
| st_metric (label value : string)
| st_success (msg : string)
| st_warning (msg : string)
| st_error (msg : string)
| desktop_notification (title message : string).

(** One pass of the body of the [while] loop (lines 52-73): what it shows
    and whether the loop goes on ([false] after [break]).  The chart of
    [plot_stock] is left out. *)
Definition pass (w : World) (k : nat) (api_key stock_symbol : string)
    (alert_price : float) : list Effect * bool :=
  match fetch_data w k stock_symbol api_key with
  | Raised e => ([st_error (Py.fstr ["Error: "; e])], false)
  | Closes l =>
      match last (map Some l) None with
      | None =>
          ([st_warning "No data found. Check the stock symbol or API key."],
           true)
      | Some current_price =>
          let metric :=
            st_metric (Py.fstr [stock_symbol; " Current Price"])
              (Py.fstr ["$"; format_2f w current_price]) in
          if Py.gt alert_price 0 && Py.ge current_price alert_price then
            match notify w k with
            | Some e => ([metric; st_error (Py.fstr ["Error: "; e])], false)
            | None =>
                ([metric;
                  desktop_notification "Stock Price Alert 🚨"
                    (Py.fstr [stock_symbol; " has reached $";
                              format_2f w current_price; "!"]);
                  st_success
                    (Py.fstr ["🚨 Alert! "; stock_symbol;
                              " has reached your target price: $";
                              format_2f w current_price])],
                 true)
            end
          else ([metric], true)
      end
  end.

(** The first [n] passes of the [while True] loop, from pass [k] on: what
    they show, and whether the loop is still running after them. *)
Fixpoint passes (w : World) (n k : nat) (api_key stock_symbol : string)
    (alert_price : float) : list Effect * bool :=
  match n with
  | O => ([], true)
  | S m =>
      let '(shown, go_on) := pass w k api_key stock_symbol alert_price in
      if go_on then
        let '(rest, still) :=
          passes w m (S k) api_key stock_symbol alert_price in
        (shown ++ rest, still)
      else (shown, false)
  end.


Definition is_notification (e : Effect) : bool :=
  match e with
  | desktop_notification _ _ => true
  | _ => false
  end.

Definition is_error (e : Effect) : bool :=
  match e with
  | st_error _ => true
  | _ => false
  end.

(** The passes among the first [n], from [k] on, that notify if reached:
    the frame is not empty, the alert price is above zero and the last
    price is at least the alert price. *)
Definition qualifies (w : World) (k : nat) (api_key stock_symbol : string)
    (alert_price : float) : bool :=
  match fetch_data w k stock_symbol api_key with
  | Raised _ => false
  | Closes l =>
      match last (map Some l) None with
      | None => false
      | Some current_price =>
          Py.gt alert_price 0 && Py.ge current_price alert_price
      end
  end.

End AppAlpha.

(** ** More observations *)

Module Inv.
Import AppCode Obs.

(** What the "Set Alert" form and the evaluator guarantee of a record: a
    target price above zero, a recipient, one of the two alert types, and
    a time of firing exactly when it has fired. *)
Definition well_formed (a : Alert) : Prop :=
  Py.gt (target_price a) 0 = true
  /\ Py.truthy (recipient_email a) = true
  /\ (alert_type a = RisesTo \/ alert_type a = FallsTo)
  /\ (if triggered a then exists t, triggered_at a = Some t
      else triggered_at a = None).


(** An e-mail is addressed to the recipient of a triggered alert of the
    state, with the subject of that alert. *)
Definition mail_for_alert (s : State) (e : Effect) : Prop :=
  match e with
  | smtp_send recipient subject _ =>
      exists i a,
        nth_error (alerts s) i = Some a /\ triggered a = true
        /\ recipient = recipient_email a /\ subject = email_subject a
  | _ => True
  end.



End Inv.

(** ** More example worlds *)

Module MoreExamples.
Import AppCode Examples.

(** A row whose closing price is missing while its volume is not. *)
Definition row_without_close : Row :=
  {| Open := nan; High := nan; Low := nan; Close := nan; Volume := 1000 |}.

(** A row with nothing in it. *)
Definition blank_row : Row :=
  {| Open := nan; High := nan; Low := nan; Close := nan; Volume := nan |}.

(** The source answers a frame that ends with a row without a close. *)
Definition w_no_close : World :=
  {| yf_download := fun _ _ _ _ => Frame [row 151; row_without_close];
     utcnow_isoformat := clock;
     smtp_session := fun _ _ _ _ => None;
     format_2f := fun _ => "#.##" |}.

(** The source answers 151.00 for every symbol but raises for the
    one-week interval of the second tab. *)
Definition w_hist_down : World :=
  {| yf_download := fun _ _ _ itv =>
       if String.eqb itv "1wk" then Raised "timed out"
       else Frame [row 151];
     utcnow_isoformat := clock;
     smtp_session := fun _ _ _ _ => None;
     format_2f := fun _ => "#.##" |}.

Definition ui_weekly (sym : string) (c : Click) : Widgets :=
  {| symbol_select := sym; hist_symbol := sym; hist_period := "365d";
     hist_interval := "1wk"; click := c |}.

End MoreExamples.

(** * Properties *)

Section Lists.
Variable A : Type.

Lemma setitem_length (i : nat) (x : A) (l : list A) :
  List.length (Py.setitem i x l) = List.length l.
Proof.
  revert i; induction l as [|y r IH]; intros [|j]; simpl; auto.
Qed.

Lemma setitem_same (i : nat) (x : A) (l : list A) :
  i < List.length l -> nth_error (Py.setitem i x l) i = Some x.
Proof.
  revert i; induction l as [|y r IH]; intros [|j]; simpl; intros H;
    try lia; auto.
  apply IH; lia.
Qed.

Lemma setitem_other (i j : nat) (x : A) (l : list A) :
  i <> j -> nth_error (Py.setitem i x l) j = nth_error l j.
Proof.
  revert i j; induction l as [|y r IH]; intros [|i] [|j]; simpl; intros H;
    try congruence; auto.
Qed.

Lemma setitem_twice (i : nat) (x y : A) (l : list A) :
  Py.setitem i y (Py.setitem i x l) = Py.setitem i y l.
Proof.
  revert i; induction l as [|z r IH]; intros [|j]; simpl; auto.
  now rewrite IH.
Qed.

Lemma setitem_split (i : nat) (x a : A) (l : list A) :
  nth_error l i = Some a ->
  exists pre post,
    l = pre ++ a :: post /\ Py.setitem i x l = pre ++ x :: post
    /\ List.length pre = i.
Proof.
  revert i; induction l as [|z r IH]; intros [|j]; simpl; intros H;
    try discriminate.
  - injection H as ->. now exists [], r.
  - destruct (IH _ H) as (pre & post & -> & E & L).
    exists (z :: pre), post. simpl. now rewrite E, L.
Qed.

Lemma nth_error_in_range (i : nat) (a : A) (l : list A) :
  nth_error l i = Some a -> i < List.length l.
Proof.
  intros H. apply nth_error_Some. congruence.
Qed.

End Lists.

Module StepFacts.
Import AppCode Obs.

Ltac unfold_state :=
  unfold emit, tick, with_alerts, with_alert_history, with_running; simpl.

(** A frame with a last closing price is not empty. *)
Lemma last_close_not_empty (df : DataFrame) (p : float) :
  last_close df = Some p -> empty df = false.
Proof.
  destruct df; simpl; [discriminate | reflexivity].
Qed.

(** The fetch of an evaluation: the frame and the state it leaves. *)
Lemma fetch_intraday_frame (w : World) (sym per itv : string) (s : State) :
  fst (fetch_intraday w sym per itv s)
  = frame_of (yf_download w (ticks s) sym per itv).
Proof.
  unfold fetch_intraday. now destruct (yf_download w (ticks s) sym per itv).
Qed.

Lemma fetch_intraday_state (w : World) (sym per itv : string) (s : State) :
  let s1 := snd (fetch_intraday w sym per itv s) in
  alerts s1 = alerts s /\ alert_history s1 = alert_history s
  /\ running s1 = running s /\ ticks s1 = S (ticks s)
  /\ (effects s1 = effects s
      \/ exists m, effects s1 = effects s ++ [st_error m]).
Proof.
  unfold fetch_intraday.
  destruct (yf_download w (ticks s) sym per itv); simpl;
    repeat split; eauto.
Qed.

Lemma fetch_intraday_got (w : World) (sym per itv : string) (s : State)
    (p : float) :
  last_close (frame_of (yf_download w (ticks s) sym per itv)) = Some p ->
  fetch_intraday w sym per itv s
  = (frame_of (yf_download w (ticks s) sym per itv), tick s).
Proof.
  unfold fetch_intraday.
  destruct (yf_download w (ticks s) sym per itv); simpl; auto.
  discriminate.
Qed.

(** The state after lines 304-316. *)
Lemma fire_fields (w : World) (i : nat) (a : Alert) (p : float)
    (s : State) :
  let now := utcnow_isoformat w (ticks s) in
  let s' := fire w i a p s in
  alerts s' = Py.setitem i (fired now a) (alerts s)
  /\ alert_history s'
     = alert_history s ++ [history_record (fired now a) p]
  /\ running s' = running s
  /\ ticks s' = S (ticks s)
  /\ effects s'
     = effects s ++ [st_toast (toast_text w (fired now a) p)].
Proof.
  intros now s'. subst s' now. unfold fire, fired; cbn.
  rewrite setitem_twice. repeat split.
Qed.

(** Lines 318-323 touch neither the alerts nor the history. *)
Lemma notify_fields (w : World) (i : nat) (p : float) (s : State)
    (a : Alert) :
  nth_error (alerts s) i = Some a ->
  let s' := notify w i p s in
  alerts s' = alerts s
  /\ alert_history s' = alert_history s
  /\ running s' = running s
  /\ ticks s' = S (ticks s)
  /\ effects s'
     = effects s
       ++ [smtp_send (recipient_email a) (email_subject a)
             (email_body w a p);
           outcome_effect a
             (smtp_session w (ticks s) (recipient_email a)
                (email_subject a) (email_body w a p))].
Proof.
  intros H. unfold notify. rewrite H. unfold send_email, outcome_effect.
  destruct (smtp_session w (ticks s) (recipient_email a)
              (email_subject a) (email_body w a p));
    simpl; rewrite <- app_assoc; simpl; repeat split.
Qed.

(** An iteration that fires. *)
Lemma check_alert_fires (w : World) (i : nat) (s : State) (a : Alert)
    (p : float) :
  nth_error (alerts s) i = Some a ->
  triggered a = false ->
  fetched w (ticks s) (symbol a) = Some p ->
  trigger_of a p = true ->
  check_alert w i s = notify w i p (fire w i a p (tick s)).
Proof.
  intros Hi Ht Hf Hc. unfold check_alert. rewrite Hi, Ht.
  unfold fetched in Hf. rewrite (fetch_intraday_got _ _ _ _ _ Hf).
  rewrite (last_close_not_empty _ Hf), Hf, Hc. reflexivity.
Qed.

(** The fields of the state after an iteration that fires. *)
Lemma check_alert_fires_fields (w : World) (i : nat) (s : State)
    (a : Alert) (p : float) :
  nth_error (alerts s) i = Some a ->
  triggered a = false ->
  fetched w (ticks s) (symbol a) = Some p ->
  trigger_of a p = true ->
  let now := utcnow_isoformat w (S (ticks s)) in
  let a' := fired now a in
  let s' := check_alert w i s in
  alerts s' = Py.setitem i a' (alerts s)
  /\ alert_history s' = alert_history s ++ [history_record a' p]
  /\ running s' = running s
  /\ ticks s' = 3 + ticks s
  /\ effects s'
     = effects s
       ++ [st_toast (toast_text w a' p);
           smtp_send (recipient_email a') (email_subject a')
             (email_body w a' p);
           outcome_effect a'
             (smtp_session w (2 + ticks s) (recipient_email a')
                (email_subject a') (email_body w a' p))].
Proof.
  intros Hi Ht Hf Hc now a' s'. subst s'.
  rewrite (check_alert_fires _ _ _ Hi Ht Hf Hc).
  pose proof (fire_fields w i a p (tick s)) as F. cbv zeta in F.
  change (ticks (tick s)) with (S (ticks s)) in F.
  change (alerts (tick s)) with (alerts s) in F.
  change (alert_history (tick s)) with (alert_history s) in F.
  change (running (tick s)) with (running s) in F.
  change (effects (tick s)) with (effects s) in F.
  fold now in F. fold a' in F. destruct F as (Fa & Fh & Fr & Ft & Fe).
  assert (Hn : nth_error (alerts (fire w i a p (tick s))) i = Some a').
  { rewrite Fa. apply setitem_same. eapply nth_error_in_range; eauto. }
  pose proof (notify_fields w i p _ Hn) as N. cbv zeta in N.
  destruct N as (Na & Nh & Nr & Nt & Ne).
  rewrite Na, Nh, Nr, Nt, Ne, Fa, Fh, Fr, Ft, Fe.
  rewrite <- app_assoc. simpl. repeat split.
Qed.

(** An iteration that does not fire leaves the alerts and the history
    alone and shows at most the error of the failed download. *)
Lemma check_alert_quiet (w : World) (i : nat) (s : State) :
  (forall a p,
      nth_error (alerts s) i = Some a -> triggered a = false ->
      fetched w (ticks s) (symbol a) = Some p ->
      trigger_of a p = false) ->
  let s' := check_alert w i s in
  alerts s' = alerts s /\ alert_history s' = alert_history s
  /\ running s' = running s
  /\ (effects s' = effects s
      \/ exists m, effects s' = effects s ++ [st_error m]).
Proof.
  intros H. unfold check_alert.
  destruct (nth_error (alerts s) i) as [a|] eqn:Hi; simpl; auto.
  destruct (triggered a) eqn:Ht; simpl; auto.
  pose proof (fetch_intraday_frame w (symbol a) "2d" "5m" s) as Hfr.
  pose proof (fetch_intraday_state w (symbol a) "2d" "5m" s) as Hst.
  destruct (fetch_intraday w (symbol a) "2d" "5m" s) as [df s1].
  simpl in Hfr, Hst. destruct Hst as (Ha & Hh & Hr & _ & He).
  destruct (empty df) eqn:Hem; [tauto|].
  destruct (last_close df) as [p|] eqn:Hl; [|tauto].
  rewrite (H a p eq_refl Ht); [tauto|].
  unfold fetched. now rewrite <- Hfr.
Qed.

(** Every iteration is of one of the two kinds. *)
Lemma check_alert_cases (w : World) (i : nat) (s : State) :
  (exists a p,
      nth_error (alerts s) i = Some a /\ triggered a = false
      /\ fetched w (ticks s) (symbol a) = Some p
      /\ trigger_of a p = true)
  \/ (forall a p,
         nth_error (alerts s) i = Some a -> triggered a = false ->
         fetched w (ticks s) (symbol a) = Some p ->
         trigger_of a p = false).
Proof.
  destruct (nth_error (alerts s) i) as [a|]; [|right; discriminate].
  destruct (triggered a) eqn:Ht.
  { right. intros a0 p [= <-]. congruence. }
  destruct (fetched w (ticks s) (symbol a)) as [p|] eqn:Hf.
  - destruct (trigger_of a p) eqn:Hc.
    + left. now exists a, p.
    + right. intros a0 p0 [= <-] _ H. rewrite Hf in H.
      injection H as <-. exact Hc.
  - right. intros a0 p0 [= <-] _ H. rewrite Hf in H. discriminate.
Qed.

End StepFacts.

(** ** The trigger condition *)

Module Trigger.
Import AppCode Obs StepFacts Examples.

Lemma trigger_of_rises (a : Alert) (p : float) :
  alert_type a = RisesTo -> trigger_of a p = Py.ge p (target_price a).
Proof.
  intros E. unfold trigger_of. rewrite E. simpl.
  now destruct (Py.ge p (target_price a)).
Qed.

Lemma trigger_of_falls (a : Alert) (p : float) :
  alert_type a = FallsTo -> trigger_of a p = Py.le p (target_price a).
Proof.
  intros E. unfold trigger_of. rewrite E. simpl.
  now destruct (Py.le p (target_price a)).
Qed.

(** After the iteration of an untriggered alert whose price was fetched,
    its flag is the value of the test. *)
Lemma check_alert_flag (w : World) (i : nat) (s : State) (a : Alert)
    (p : float) :
  nth_error (alerts s) i = Some a ->
  triggered a = false ->
  fetched w (ticks s) (symbol a) = Some p ->
  triggered_in i (check_alert w i s) = trigger_of a p.
Proof.
  intros Hi Ht Hf. unfold triggered_in.
  destruct (trigger_of a p) eqn:Hc.
  - destruct (check_alert_fires_fields w i s Hi Ht Hf Hc) as (Ha & _).
    rewrite Ha, setitem_same; [reflexivity|].
    eapply nth_error_in_range; eauto.
  - destruct (check_alert_quiet w i s) as (Ha & _).
    + intros a0 p0 E _ Hf0. rewrite Hi in E. injection E as <-.
      rewrite Hf in Hf0. injection Hf0 as <-. exact Hc.
    + now rewrite Ha, Hi.
Qed.

(** What the iteration adds to the history and to the notifications,
    according to the test. *)
Lemma check_alert_emits (w : World) (i : nat) (s : State) (a : Alert)
    (p : float) :
  nth_error (alerts s) i = Some a ->
  triggered a = false ->
  fetched w (ticks s) (symbol a) = Some p ->
  let s' := check_alert w i s in
  if trigger_of a p then
    alert_history s'
    = alert_history s
      ++ [history_record (fired (utcnow_isoformat w (S (ticks s))) a) p]
    /\ toasts s' = S (toasts s) /\ mails s' = S (mails s)
  else
    alert_history s' = alert_history s
    /\ toasts s' = toasts s /\ mails s' = mails s.
Proof.
  intros Hi Ht Hf s'. subst s'. unfold toasts, mails.
  destruct (trigger_of a p) eqn:Hc.
  - destruct (check_alert_fires_fields w i s Hi Ht Hf Hc)
      as (_ & Hh & _ & _ & He).
    rewrite Hh, He, !filter_app, !length_app. split; [reflexivity|].
    unfold outcome_effect.
    destruct (smtp_session _ _ _ _ _); simpl; lia.
  - destruct (check_alert_quiet w i s) as (_ & Hh & _ & He).
    + intros a0 p0 E _ Hf0. rewrite Hi in E. injection E as <-.
      rewrite Hf in Hf0. injection Hf0 as <-. exact Hc.
    + split; [exact Hh|].
      destruct He as [-> | [m ->]]; [tauto|].
      rewrite !filter_app, !length_app. simpl. lia.
Qed.

(** C1. An untriggered alert evaluated against a fetched price [p] fires
    exactly when [p >= target_price] if it is a "rises to" alert and
    exactly when [p <= target_price] if it is a "falls to" alert; firing
    means that its flag is set, that one history record is appended and
    that one toast and one e-mail are produced, and otherwise none of
    this happens.  For the "rises to" alert on AAPL with target 150.00
    and the observations 148, 149.5 and 150.0, nothing fires in the
    first two cycles, the third fires, and further cycles add nothing. *)
Theorem fires_exactly_when :
  (forall (w : World) (i : nat) (s : State) (a : Alert) (p : float),
      nth_error (alerts s) i = Some a ->
      triggered a = false ->
      fetched w (ticks s) (symbol a) = Some p ->
      let s' := check_alert w i s in
      (alert_type a = RisesTo ->
       triggered_in i s' = Py.ge p (target_price a))
      /\ (alert_type a = FallsTo ->
          triggered_in i s' = Py.le p (target_price a))
      /\ (triggered_in i s' = true ->
          List.length (alert_history s')
          = S (List.length (alert_history s))
          /\ toasts s' = S (toasts s) /\ mails s' = S (mails s))
      /\ (triggered_in i s' = false ->
          alert_history s' = alert_history s
          /\ toasts s' = toasts s /\ mails s' = mails s))
  /\ (let w := w_seq [148; 149.5; 150.0]%float in
      let s0 := watching [aapl_150] in
      let observed n :=
        (triggered_in 0 (cycles w n s0),
         map rec_actual_price (alert_history (cycles w n s0)),
         toasts (cycles w n s0), mails (cycles w n s0)) in
      observed 1 = (false, [], 0, 0)
      /\ observed 2 = (false, [], 0, 0)
      /\ observed 3 = (true, [150.0%float], 1, 1)
      /\ observed 4 = (true, [150.0%float], 1, 1)
      /\ observed 9 = (true, [150.0%float], 1, 1)).
Proof.
  split.
  - intros w i s a p Hi Ht Hf s'. subst s'.
    pose proof (check_alert_flag w i s Hi Ht Hf) as Hflag.
    pose proof (check_alert_emits w i s Hi Ht Hf) as Hem.
    cbv zeta in Hem. rewrite Hflag.
    split; [intros E; now apply trigger_of_rises|].
    split; [intros E; now apply trigger_of_falls|].
    split; intros Hc; rewrite Hc in Hem.
    + destruct Hem as (-> & ? & ?). rewrite length_app. simpl.
      repeat split; auto; lia.
    + exact Hem.
  - vm_compute. repeat split.
Qed.

Lemma fires_exactly_when_witness :
  triggered_in 0 (check_alert (w_seq [150.0%float]) 0 (watching [aapl_150]))
  = Py.ge 150.0 (target_price aapl_150).
Proof.
  exact (proj1 (proj1 fires_exactly_when (w_seq [150.0%float]) 0
                  (watching [aapl_150]) aapl_150 150.0%float
                  eq_refl eq_refl eq_refl)
               eq_refl).
Defined.

End Trigger.

(** ** From one iteration to cycles *)

Module Cycle.
Import AppCode Obs StepFacts.

Section Relation.
Variable w : World.
Variable R : State -> State -> Prop.
Hypothesis R_refl : forall s, R s s.
Hypothesis R_trans : forall s1 s2 s3, R s1 s2 -> R s2 s3 -> R s1 s3.
Hypothesis R_step : forall i s, R s (check_alert w i s).

Lemma loop_rel (l : list nat) (s : State) :
  R s (fold_left (fun s i => check_alert w i s) l s).
Proof.
  revert s; induction l as [|i l IH]; intros s; simpl; [apply R_refl|].
  eapply R_trans; [apply R_step | apply IH].
Qed.

Lemma cycle_rel (s : State) : R s (check_alerts_and_notify w s).
Proof. apply loop_rel. Qed.

Lemma cycles_rel (n : nat) (s : State) : R s (cycles w n s).
Proof.
  revert s; induction n as [|n IH]; intros s; simpl; [apply R_refl|].
  eapply R_trans; [apply cycle_rel | apply IH].
Qed.
End Relation.

(** An iteration changes at most the element at its own index. *)
Lemma check_alert_alerts (w : World) (i : nat) (s : State) :
  alerts (check_alert w i s) = alerts s
  \/ exists a p,
       nth_error (alerts s) i = Some a /\ triggered a = false
       /\ fetched w (ticks s) (symbol a) = Some p
       /\ trigger_of a p = true
       /\ alerts (check_alert w i s)
          = Py.setitem i (fired (utcnow_isoformat w (S (ticks s))) a)
              (alerts s)
       /\ alert_history (check_alert w i s)
          = alert_history s
            ++ [history_record
                  (fired (utcnow_isoformat w (S (ticks s))) a) p].
Proof.
  destruct (check_alert_cases w i s) as [(a & p & Hi & Ht & Hf & Hc) | Hq].
  - right. exists a, p.
    destruct (check_alert_fires_fields w i s Hi Ht Hf Hc)
      as (Ha & Hh & _). auto 10.
  - left. now destruct (check_alert_quiet w i s Hq).
Qed.

Lemma check_alert_other (w : World) (i j : nat) (s : State) :
  i <> j ->
  nth_error (alerts (check_alert w i s)) j = nth_error (alerts s) j.
Proof.
  intros Hij.
  destruct (check_alert_alerts w i s) as [-> | (a & p & _ & _ & _ & _ & -> & _)];
    [reflexivity|].
  now apply setitem_other.
Qed.

Lemma check_alert_length (w : World) (i : nat) (s : State) :
  List.length (alerts (check_alert w i s)) = List.length (alerts s).
Proof.
  destruct (check_alert_alerts w i s) as [-> | (a & p & _ & _ & _ & _ & -> & _)];
    [reflexivity|].
  apply setitem_length.
Qed.

Lemma check_alert_running (w : World) (i : nat) (s : State) :
  running (check_alert w i s) = running s.
Proof.
  destruct (check_alert_cases w i s) as [(a & p & Hi & Ht & Hf & Hc) | Hq].
  - now destruct (check_alert_fires_fields w i s Hi Ht Hf Hc)
      as (_ & _ & Hr & _).
  - now destruct (check_alert_quiet w i s Hq) as (_ & _ & Hr & _).
Qed.

Lemma keeps_refl (s : State) : keeps s s.
Proof. intros i a H. exists a. auto. Qed.

Lemma keeps_trans (s1 s2 s3 : State) :
  keeps s1 s2 -> keeps s2 s3 -> keeps s1 s3.
Proof.
  intros H12 H23 i a Hi.
  destruct (H12 i a Hi) as (a' & Hi' & Ha').
  destruct (H23 i a' Hi') as (a'' & Hi'' & Ha'').
  exists a''. split; [exact Hi''|].
  destruct Ha' as [-> | (Ht & now & ->)]; [exact Ha''|].
  destruct Ha'' as [-> | (Ht' & _)]; [eauto | discriminate].
Qed.

Lemma keeps_step (w : World) (i : nat) (s : State) :
  keeps s (check_alert w i s).
Proof.
  intros j b Hj.
  destruct (Nat.eq_dec i j) as [<- | Hij].
  - destruct (check_alert_alerts w i s)
      as [-> | (a & p & Hi & Ht & _ & _ & -> & _)].
    + exists b. auto.
    + rewrite Hj in Hi. injection Hi as <-.
      exists (fired (utcnow_isoformat w (S (ticks s))) b).
      split; [|eauto].
      apply setitem_same. eapply nth_error_in_range; eauto.
  - exists b. split; [|auto]. now rewrite check_alert_other.
Qed.

Lemma keeps_cycles (w : World) (n : nat) (s : State) :
  keeps s (cycles w n s).
Proof.
  apply cycles_rel;
    [apply keeps_refl | apply keeps_trans | apply keeps_step].
Qed.

Lemma keeps_cycle (w : World) (s : State) :
  keeps s (check_alerts_and_notify w s).
Proof. apply (keeps_cycles w 1 s). Qed.

Lemma length_cycles (w : World) (n : nat) (s : State) :
  List.length (alerts (cycles w n s)) = List.length (alerts s).
Proof.
  apply cycles_rel
    with (R := fun s s' =>
                 List.length (alerts s') = List.length (alerts s));
    [reflexivity | intros; congruence | intros; apply check_alert_length].
Qed.

End Cycle.

(** ** The buttons *)

Module Buttons.
Import AppCode Obs StepFacts Cycle.

(** The record the "Set Alert" button creates. *)
Lemma set_alert_alerts (w : World) (sym e : string) (p : float)
    (t : string) (s : State) :
  alerts (set_alert w sym e p t s)
  = if Py.truthy e && Py.gt p 0
    then alerts s
         ++ [ {| id := Z.of_nat (List.length (alerts s)) + 1;
                 symbol := sym; target_price := p; alert_type := t;
                 recipient_email := e; triggered := false;
                 created_at := utcnow_isoformat w (ticks s);
                 triggered_at := None |} ]
    else alerts s.
Proof.
  unfold set_alert. now destruct (Py.truthy e && Py.gt p 0).
Qed.

Lemma set_alert_history (w : World) (sym e : string) (p : float)
    (t : string) (s : State) :
  alert_history (set_alert w sym e p t s) = alert_history s
  /\ running (set_alert w sym e p t s) = running s
  /\ toasts (set_alert w sym e p t s) = toasts s
  /\ mails (set_alert w sym e p t s) = mails s.
Proof.
  unfold set_alert, toasts, mails.
  destruct (Py.truthy e && Py.gt p 0); simpl;
    rewrite !filter_app, !length_app; simpl; repeat split; lia.
Qed.

Lemma remove_all_alerts_alerts (s : State) :
  alerts (remove_all_alerts s) = [].
Proof.
  unfold remove_all_alerts.
  destruct (alerts s) as [|a l] eqn:E; simpl; [exact E | reflexivity].
Qed.

Lemma remove_all_alerts_history (s : State) :
  alert_history (remove_all_alerts s) = alert_history s
  /\ running (remove_all_alerts s) = running s
  /\ toasts (remove_all_alerts s) = toasts s
  /\ mails (remove_all_alerts s) = mails s.
Proof.
  unfold remove_all_alerts, toasts, mails.
  destruct (negb _); simpl; rewrite ?filter_app, ?length_app; simpl;
    repeat split; lia.
Qed.

Lemma clear_alert_history_alerts (s : State) :
  alerts (clear_alert_history s) = alerts s.
Proof.
  unfold clear_alert_history. now destruct (negb _).
Qed.

(** The state in which the handlers of the first tab run. *)
Lemma fetch_then (w : World) (sym per itv : string) (s : State) :
  exists df s2,
    fetch_intraday w sym per itv s = (df, s2)
    /\ alerts s2 = alerts s /\ alert_history s2 = alert_history s
    /\ running s2 = running s
    /\ toasts s2 = toasts s /\ mails s2 = mails s.
Proof.
  pose proof (fetch_intraday_state w sym per itv s) as H. cbv zeta in H.
  destruct (fetch_intraday w sym per itv s) as [df s2]. simpl in H.
  destruct H as (Ha & Hh & Hr & _ & He).
  exists df, s2. unfold toasts, mails.
  repeat split; auto;
    destruct He as [-> | [m ->]]; auto;
    rewrite filter_app, length_app; simpl; lia.
Qed.

Ltac count_effects :=
  unfold toasts, mails; simpl;
  rewrite ?filter_app, ?length_app; simpl; try reflexivity; try lia.

Lemma clear_alert_history_summary (s : State) :
  toasts (clear_alert_history s) = toasts s
  /\ mails (clear_alert_history s) = mails s
  /\ running (clear_alert_history s) = running s
  /\ (alerts s = [] -> alert_history (clear_alert_history s) = alert_history s).
Proof.
  unfold clear_alert_history.
  destruct (alerts s) eqn:E; simpl; repeat split; try count_effects;
    discriminate.
Qed.

(** What the sidebar and the first tab do to the alerts, the history and
    the notifications: at most one record is added, at the end of the
    list and by an accepted "Set Alert". *)
Lemma first_tabs_summary (w : World) (u : Widgets) (s : State) :
  let s' := first_tabs w u s in
  toasts s' = toasts s /\ mails s' = mails s
  /\ alert_history s' = alert_history s
  /\ (alerts s' = alerts s
      \/ exists e p t a,
           click u = SetAlert e p t
           /\ alerts s' = alerts s ++ [a]
           /\ id a = (Z.of_nat (List.length (alerts s)) + 1)%Z
           /\ triggered a = false
           /\ Py.truthy e = true /\ Py.gt p 0 = true).
Proof.
  intros s'. subst s'. unfold first_tabs.
  match goal with
  | |- context [fetch_intraday w (symbol_select u) "7d" "5m" ?s1] =>
      assert (H1 : alerts s1 = alerts s /\ alert_history s1 = alert_history s
                   /\ toasts s1 = toasts s /\ mails s1 = mails s)
        by (destruct (click u); repeat split);
      destruct (fetch_then w (symbol_select u) "7d" "5m" s1)
        as (df & s2 & -> & Ha & Hh & _ & Ht & Hm)
  end.
  destruct H1 as (Ha1 & Hh1 & Ht1 & Hm1).
  rewrite Ha1 in Ha. rewrite Hh1 in Hh. rewrite Ht1 in Ht. rewrite Hm1 in Hm.
  destruct (empty df).
  - simpl. repeat split; auto; rewrite <- ?Ht, <- ?Hm; count_effects.
  - destruct (click u) as [ | | |e p t| | ] eqn:Hc; auto.
    destruct (set_alert_history w (symbol_select u) e p (label t) s2)
      as (Sh & _ & St & Sm).
    rewrite Sh, St, Sm. repeat split; auto.
    rewrite set_alert_alerts, Ha.
    destruct (Py.truthy e) eqn:E1; destruct (Py.gt p 0) eqn:E2;
      simpl; auto.
    right. exists e, p, t. eexists. split; [reflexivity|].
    split; [reflexivity|]. simpl. auto.
Qed.

(** What the buttons of the third tab do. *)
Lemma alerts_tab_summary (c : Click) (s : State) :
  let s' := alerts_tab c s in
  toasts s' = toasts s /\ mails s' = mails s /\ running s' = running s
  /\ (c <> ClearAlertHistory \/ alerts s = [] ->
      alert_history s' = alert_history s)
  /\ match c with
     | RemoveAllAlerts => alerts s' = []
     | _ => alerts s' = alerts s
     end.
Proof.
  intros s'. subst s'. destruct c; simpl; try (repeat split; auto; fail).
  - destruct (remove_all_alerts_history s) as (Rh & Rr & Rt & Rm).
    rewrite remove_all_alerts_alerts. auto.
  - destruct (clear_alert_history_summary s) as (Ct & Cm & Cr & Ch).
    rewrite clear_alert_history_alerts. repeat split; auto.
    intros [H | H]; [congruence | auto].
Qed.

(** A run either stops at the download of the second tab or reaches the
    monitoring block. *)
Lemma rerun_cases (w : World) (u : Widgets) (s : State) :
  rerun w u s = tick (first_tabs w u s)
  \/ rerun w u s
     = monitoring w (alerts_tab (click u) (tick (first_tabs w u s))).
Proof.
  unfold rerun. destruct (yf_download w _ _ _ _); auto.
Qed.

Lemma monitoring_keeps (w : World) (s : State) : keeps s (monitoring w s).
Proof.
  unfold monitoring. destruct (running s);
    [apply keeps_cycle | apply keeps_refl].
Qed.

Lemma monitoring_length (w : World) (s : State) :
  List.length (alerts (monitoring w s)) = List.length (alerts s).
Proof.
  unfold monitoring. destruct (running s); [|reflexivity].
  apply (length_cycles w 1 s).
Qed.

End Buttons.

(** ** The flag never goes back *)

Module Monotonic.
Import AppCode Obs StepFacts Cycle Buttons Examples.

(** C2. Evaluation keeps every record at its index, leaves a triggered
    record exactly as it is and changes an untriggered one at most by
    firing it, so the flag goes from false to true only; the list keeps
    its length.  A run of the script with any button but "Remove all
    alerts" keeps every triggered record in place, whereas the handler of
    "Remove all alerts", followed by the monitoring block, leaves the
    empty list, and so does the run of the script when the download of
    the second tab does not raise. *)
Theorem triggered_is_monotonic :
  (forall (w : World) (n : nat) (s : State) (i : nat) (a : Alert),
      nth_error (alerts s) i = Some a ->
      exists a',
        nth_error (alerts (cycles w n s)) i = Some a'
        /\ (triggered a = true -> a' = a)
        /\ (triggered a' = false -> a' = a)
        /\ (a' = a \/ exists now, a' = fired now a))
  /\ (forall (w : World) (n : nat) (s : State),
         List.length (alerts (cycles w n s)) = List.length (alerts s))
  /\ (forall (w : World) (u : Widgets) (s : State) (i : nat) (a : Alert),
         click u <> RemoveAllAlerts ->
         nth_error (alerts s) i = Some a ->
         triggered a = true ->
         nth_error (alerts (rerun w u s)) i = Some a)
  /\ (forall (w : World) (s : State),
         alerts (monitoring w (alerts_tab RemoveAllAlerts s)) = [])
  /\ (forall (w : World) (u : Widgets) (s : State),
         click u = RemoveAllAlerts ->
         (forall e,
             yf_download w (ticks (first_tabs w u s)) (hist_symbol u)
               (hist_period u) (hist_interval u) <> Raised e) ->
         alerts (rerun w u s) = []).
Proof.
  assert (Hclear : forall (w : World) (s : State),
             alerts (monitoring w (alerts_tab RemoveAllAlerts s)) = []).
  { intros w s.
    pose proof (monitoring_length w (alerts_tab RemoveAllAlerts s)) as H.
    simpl in H. rewrite remove_all_alerts_alerts in H.
    now destruct (alerts (monitoring w _)). }
  split; [|split; [|split; [|split]]].
  - intros w n s i a Hi.
    destruct (keeps_cycles w n s i Hi) as (a' & Hi' & Ha').
    exists a'. split; [exact Hi'|].
    destruct Ha' as [-> | (Ht & now & ->)].
    + auto.
    + repeat split; eauto; [congruence | discriminate].
  - intros w n s. apply length_cycles.
  - intros w u s i a Hc Hi Ht.
    assert (Hi1 : nth_error (alerts (first_tabs w u s)) i = Some a).
    { destruct (first_tabs_summary w u s)
        as (_ & _ & _ & [-> | (e & p & t & b & _ & -> & _)]);
        [exact Hi|].
      rewrite nth_error_app1; [exact Hi|].
      eapply nth_error_in_range; eauto. }
    destruct (rerun_cases w u s) as [-> | ->]; [exact Hi1|].
    assert (Hi2 : nth_error
                    (alerts (alerts_tab (click u) (tick (first_tabs w u s))))
                    i = Some a).
    { destruct (alerts_tab_summary (click u) (tick (first_tabs w u s)))
        as (_ & _ & _ & _ & Ha).
      destruct (click u); try (rewrite Ha; exact Hi1). congruence. }
    destruct (monitoring_keeps w _ i Hi2) as (a' & Hi' & Ha').
    destruct Ha' as [-> | (Hf & _)]; [exact Hi' | congruence].
  - exact Hclear.
  - intros w u s Hc Hd. unfold rerun. rewrite Hc.
    destruct (yf_download w _ _ _ _) as [e| |df] eqn:E;
      [now destruct (Hd e) | apply Hclear | apply Hclear].
Qed.

Lemma triggered_is_monotonic_witness :
  nth_error
    (alerts (rerun (w_seq [100%float]) (ui "AAPL" ClearAlertHistory)
               (watching [fired "2024-01-01T00:00:00" aapl_150])))
    0
  = Some (fired "2024-01-01T00:00:00" aapl_150).
Proof.
  refine (proj1 (proj2 (proj2 triggered_is_monotonic))
            (w_seq [100%float]) (ui "AAPL" ClearAlertHistory)
            (watching [fired "2024-01-01T00:00:00" aapl_150]) 0
            (fired "2024-01-01T00:00:00" aapl_150) _ eq_refl eq_refl).
  discriminate.
Defined.

End Monotonic.

(** ** One notification per record *)

Module Once.
Import AppCode Obs StepFacts Cycle Examples.

Lemma notified_app (k : Z) (h1 h2 : list HistoryRecord) :
  notified k (h1 ++ h2) = notified k h1 + notified k h2.
Proof. unfold notified. now rewrite filter_app, length_app. Qed.

Lemma pending_app (k : Z) (l1 l2 : list Alert) :
  pending k (l1 ++ l2) = pending k l1 + pending k l2.
Proof. unfold pending. now rewrite filter_app, length_app. Qed.

Lemma pending_cons (k : Z) (a : Alert) (l : list Alert) :
  pending k (a :: l)
  = (if Z.eqb (id a) k && negb (triggered a) then 1 else 0) + pending k l.
Proof.
  unfold pending. simpl.
  now destruct (Z.eqb (id a) k && negb (triggered a)).
Qed.

(** Firing the element at index [i] moves one unit from [pending] to
    [notified], for the id of that element. *)
Lemma pending_fired (k : Z) (i : nat) (now : string) (a : Alert)
    (l : list Alert) :
  nth_error l i = Some a ->
  triggered a = false ->
  pending k (Py.setitem i (fired now a) l)
  + (if Z.eqb (id a) k then 1 else 0)
  = pending k l.
Proof.
  intros Hi Ht.
  destruct (setitem_split i (fired now a) l Hi) as (pre & post & -> & -> & _).
  rewrite !pending_app, !pending_cons. simpl. rewrite Ht.
  destruct (Z.eqb (id a) k); simpl; lia.
Qed.

(** What an iteration does to the alerts, the history and the
    notifications. *)
Lemma check_alert_summary (w : World) (i : nat) (s : State) :
  let s' := check_alert w i s in
  (alerts s' = alerts s /\ alert_history s' = alert_history s
   /\ toasts s' = toasts s /\ mails s' = mails s)
  \/ (exists a p,
         nth_error (alerts s) i = Some a /\ triggered a = false
         /\ fetched w (ticks s) (symbol a) = Some p
         /\ trigger_of a p = true
         /\ alerts s'
            = Py.setitem i (fired (utcnow_isoformat w (S (ticks s))) a)
                (alerts s)
         /\ alert_history s'
            = alert_history s
              ++ [history_record
                    (fired (utcnow_isoformat w (S (ticks s))) a) p]
         /\ toasts s' = S (toasts s) /\ mails s' = S (mails s)).
Proof.
  intros s'. subst s'.
  destruct (check_alert_cases w i s) as [(a & p & Hi & Ht & Hf & Hc) | Hq].
  - right. exists a, p.
    destruct (check_alert_fires_fields w i s Hi Ht Hf Hc)
      as (Ha & Hh & _ & _ & He).
    repeat split; auto; unfold toasts, mails; rewrite He;
      rewrite filter_app, length_app; unfold outcome_effect;
      destruct (smtp_session _ _ _ _ _); simpl; lia.
  - left. destruct (check_alert_quiet w i s Hq) as (Ha & Hh & _ & He).
    repeat split; auto; unfold toasts, mails;
      destruct He as [-> | [m ->]]; auto;
      rewrite filter_app, length_app; simpl; lia.
Qed.

(** For every id, the records of the history and the untriggered alerts
    add up to the same number before and after. *)
Lemma conservation_cycles (w : World) (n : nat) (s : State) (k : Z) :
  notified k (alert_history (cycles w n s)) + pending k (alerts (cycles w n s))
  = notified k (alert_history s) + pending k (alerts s).
Proof.
  apply cycles_rel
    with (R := fun s s' =>
                 notified k (alert_history s') + pending k (alerts s')
                 = notified k (alert_history s) + pending k (alerts s)).
  - reflexivity.
  - intros; congruence.
  - intros i s0.
    destruct (check_alert_summary w i s0)
      as [(-> & -> & _) | (a & p & Hi & Ht & _ & _ & -> & -> & _)];
      [reflexivity|].
    rewrite notified_app.
    pose proof (@pending_fired k i (utcnow_isoformat w (S (ticks s0))) a
                  (alerts s0) Hi Ht) as H.
    unfold notified at 2. simpl.
    destruct (Z.eqb (id a) k); simpl; lia.
Qed.

(** The history only grows, by as many records as toasts are shown and
    e-mails are sent. *)
Lemma history_grows_cycles (w : World) (n : nat) (s : State) :
  exists added,
    alert_history (cycles w n s) = alert_history s ++ added
    /\ toasts (cycles w n s) = toasts s + List.length added
    /\ mails (cycles w n s) = mails s + List.length added.
Proof.
  apply cycles_rel
    with (R := fun s s' =>
                 exists added,
                   alert_history s' = alert_history s ++ added
                   /\ toasts s' = toasts s + List.length added
                   /\ mails s' = mails s + List.length added).
  - intros s0. exists []. rewrite app_nil_r. simpl.
    repeat split; try reflexivity; lia.
  - intros s1 s2 s3 (a1 & H1 & T1 & M1) (a2 & H2 & T2 & M2).
    exists (a1 ++ a2). rewrite H2, H1, T2, T1, M2, M1, length_app.
    rewrite <- app_assoc. repeat split; try reflexivity; lia.
  - intros i s0.
    destruct (check_alert_summary w i s0)
      as [(_ & -> & -> & ->) | (a & p & _ & _ & _ & _ & _ & -> & -> & ->)].
    + exists []. rewrite app_nil_r. simpl.
      repeat split; try reflexivity; lia.
    + eexists. split; [reflexivity|]. simpl. lia.
Qed.

Lemma pending_absent (k : Z) (l : list Alert) :
  ~ In k (map id l) -> pending k l = 0.
Proof.
  induction l as [|b l IH]; simpl; intros H; [reflexivity|].
  rewrite pending_cons, IH by tauto.
  destruct (Z.eqb_spec (id b) k); [tauto | reflexivity].
Qed.

Lemma pending_unique (a : Alert) (l : list Alert) :
  NoDup (map id l) -> In a l ->
  pending (id a) l = if triggered a then 0 else 1.
Proof.
  induction l as [|b l IH]; simpl; intros Hn Hin; [tauto|].
  inversion Hn as [|x xs Hx Hn' E]; subst.
  rewrite pending_cons. destruct Hin as [-> | Hin].
  - rewrite Z.eqb_refl, pending_absent by exact Hx.
    now destruct (triggered a).
  - rewrite IH by assumption.
    destruct (Z.eqb_spec (id b) (id a)) as [E|E]; [|reflexivity].
    exfalso. apply Hx. rewrite E. now apply in_map.
Qed.

(** C3, as the code has it.  In appcode.py the iteration of a triggered
    record returns at once, with no download and no effect; over any
    number of evaluation cycles the history only grows, by one record per
    toast and per e-mail, and the records added for an id are at most the
    untriggered alerts with that id, hence at most one for a record
    whose id is its own and none for a triggered one.  data.py keeps no
    flag: [check_alerts] leaves the state as it is and so reports the
    same alerts again on the next call. *)
Theorem notified_at_most_once :
  (forall (w : World) (i : nat) (s : State) (a : Alert),
      nth_error (alerts s) i = Some a -> triggered a = true ->
      check_alert w i s = s)
  /\ (forall (w : World) (n : nat) (s : State),
         exists added,
           alert_history (cycles w n s) = alert_history s ++ added
           /\ toasts (cycles w n s) = toasts s + List.length added
           /\ mails (cycles w n s) = mails s + List.length added
           /\ (forall k, notified k added <= pending k (alerts s))
           /\ (forall a,
                  NoDup (map id (alerts s)) -> In a (alerts s) ->
                  notified (id a) added <= 1
                  /\ (triggered a = true -> notified (id a) added = 0)))
  /\ (forall (sym : string) (cp : float) (s : DataPy.State),
         snd (DataPy.check_alerts sym cp s) = s
         /\ fst (DataPy.check_alerts sym cp
                   (snd (DataPy.check_alerts sym cp s)))
            = fst (DataPy.check_alerts sym cp s)).
Proof.
  split; [|split].
  - intros w i s a Hi Ht. unfold check_alert. now rewrite Hi, Ht.
  - intros w n s.
    destruct (history_grows_cycles w n s) as (added & Hh & Ht & Hm).
    exists added. repeat split; auto.
    + intros k. pose proof (conservation_cycles w n s k) as H.
      rewrite Hh, notified_app in H. lia.
    + pose proof (conservation_cycles w n s (id a)) as Hc.
      rewrite Hh, notified_app, (pending_unique a (alerts s)) in Hc
        by assumption.
      destruct (triggered a); lia.
    + intros Ht'.
      pose proof (conservation_cycles w n s (id a)) as Hc.
      rewrite Hh, notified_app, (pending_unique a (alerts s)) in Hc
        by assumption.
      rewrite Ht' in Hc. lia.
  - intros sym cp s. split; reflexivity.
Qed.

Lemma notified_at_most_once_witness :
  check_alert (w_seq [151%float]) 0
    (watching [fired "2024-01-01T00:00:00" aapl_150])
  = watching [fired "2024-01-01T00:00:00" aapl_150].
Proof.
  exact (proj1 notified_at_most_once (w_seq [151%float]) 0
           (watching [fired "2024-01-01T00:00:00" aapl_150])
           (fired "2024-01-01T00:00:00" aapl_150) eq_refl eq_refl).
Defined.

(** The claim of at most one notification per record fails on data.py:
    with one alert on AAPL at 150.00 and the price at 151.00 in two
    successive runs, the alert is reported in both. *)
Lemma data_py_notifies_again :
  ~ (forall (f : float -> string) (sym : string) (cp : float)
            (s : DataPy.State),
        List.length
          (DataPy.effects
             (DataPy.check_triggered f sym cp
                (DataPy.check_triggered f sym cp s)))
        <= List.length (DataPy.effects s) + List.length (DataPy.alerts s)).
Proof.
  intros H.
  specialize (H fmt "AAPL" 151%float (d_watching [d_aapl_150])).
  vm_compute in H. lia.
Qed.

End Once.

(** ** A failed e-mail *)

Module Sink.
Import AppCode Obs StepFacts Cycle Examples.

(** C4. When a record fires, the iteration is lines 304-316 followed by
    lines 318-323: after the first part the record in the list already has
    its flag and its time set and the history has its record, and no
    e-mail has been sent yet; the second part sends the e-mail, whose body
    carries that time, and touches neither the alerts nor the history,
    whatever the outcome.  If the SMTP session raises [e], the record is
    triggered in the final state, its history record is the last of the
    history, and the last effect is the error message with [e]. *)
Theorem failed_notification_keeps_trigger
    (w : World) (i : nat) (s : State) (a : Alert) (p : float) :
  nth_error (alerts s) i = Some a ->
  triggered a = false ->
  fetched w (ticks s) (symbol a) = Some p ->
  trigger_of a p = true ->
  let now := utcnow_isoformat w (S (ticks s)) in
  let a' := fired now a in
  let s1 := fire w i a p (tick s) in
  let s' := check_alert w i s in
  s' = notify w i p s1
  /\ nth_error (alerts s1) i = Some a'
  /\ triggered a' = true
  /\ triggered_at a' = Some now
  /\ alert_history s1 = alert_history s ++ [history_record a' p]
  /\ mails s1 = mails s
  /\ alerts s' = alerts s1
  /\ alert_history s' = alert_history s1
  /\ mails s' = S (mails s)
  /\ (forall e,
         smtp_session w (2 + ticks s) (recipient_email a')
           (email_subject a') (email_body w a' p) = Some e ->
         triggered_in i s' = true
         /\ last (alert_history s') (history_record a p)
            = history_record a' p
         /\ effects s'
            = effects s
              ++ [st_toast (toast_text w a' p);
                  smtp_send (recipient_email a') (email_subject a')
                    (email_body w a' p);
                  st_error (Py.fstr ["Failed sending email: "; e])]).
Proof.
  intros Hi Ht Hf Hc now a' s1 s'.
  pose proof (fire_fields w i a p (tick s)) as F. cbv zeta in F.
  change (ticks (tick s)) with (S (ticks s)) in F.
  change (alerts (tick s)) with (alerts s) in F.
  change (alert_history (tick s)) with (alert_history s) in F.
  change (effects (tick s)) with (effects s) in F.
  fold now in F. fold a' in F. fold s1 in F.
  destruct F as (Fa & Fh & _ & _ & Fe).
  pose proof (check_alert_fires_fields w i s Hi Ht Hf Hc) as C.
  cbv zeta in C. fold now in C. fold a' in C. fold s' in C.
  destruct C as (Ca & Ch & _ & _ & Ce).
  assert (Hlt : i < List.length (alerts s))
    by (eapply nth_error_in_range; eauto).
  assert (Hm1 : mails s1 = mails s).
  { unfold mails. rewrite Fe, filter_app, length_app. simpl. lia. }
  split; [exact (check_alert_fires w i s Hi Ht Hf Hc)|].
  split; [rewrite Fa; now apply setitem_same|].
  split; [reflexivity|]. split; [reflexivity|].
  split; [exact Fh|]. split; [exact Hm1|].
  split; [now rewrite Ca, Fa|]. split; [now rewrite Ch, Fh|].
  split.
  { unfold mails. rewrite Ce, filter_app, length_app. unfold outcome_effect.
    destruct (smtp_session _ _ _ _ _); simpl; lia. }
  intros e He. split; [|split].
  - unfold triggered_in. rewrite Ca, setitem_same by exact Hlt. reflexivity.
  - rewrite Ch. apply last_last.
  - rewrite Ce, He. reflexivity.
Qed.

Lemma failed_notification_keeps_trigger_witness :
  triggered_in 0
    (check_alert (w_smtp_down [150.0%float]) 0 (watching [aapl_150]))
  = true.
Proof.
  exact (proj1
           (proj2 (proj2 (proj2 (proj2 (proj2 (proj2 (proj2 (proj2 (proj2
              (failed_notification_keeps_trigger
                 (w_smtp_down [150.0%float]) 0 (watching [aapl_150])
                 (a := aapl_150) (p := 150.0%float)
                 eq_refl eq_refl eq_refl eq_refl)))))))))
              "Connection refused" eq_refl)).
Defined.

End Sink.

(** ** A failing price source *)

Module Source.
Import AppCode Obs StepFacts Cycle Once Trigger Examples.

Lemma source_fails_fetched (w : World) (sym : string) (t : nat) :
  source_fails w sym -> fetched w t sym = None.
Proof.
  intros H. unfold fetched. now rewrite H.
Qed.

(** The iterations at other indices leave an index alone. *)
Lemma loop_other (w : World) (i : nat) (l : list nat) (s : State) :
  ~ In i l ->
  nth_error (alerts (fold_left (fun s j => check_alert w j s) l s)) i
  = nth_error (alerts s) i.
Proof.
  revert s; induction l as [|j l IH]; intros s H; simpl; [reflexivity|].
  rewrite IH by (simpl in H; tauto).
  apply check_alert_other. simpl in H. intros ->. tauto.
Qed.

(** In a cycle the element at index [i] is visited once, in a state in
    which it is still as the cycle found it, and not touched afterwards. *)
Lemma loop_visits (w : World) (i : nat) (a : Alert) (len start : nat)
    (s : State) :
  nth_error (alerts s) i = Some a ->
  start <= i < start + len ->
  exists s_i,
    nth_error (alerts s_i) i = Some a
    /\ nth_error
         (alerts (fold_left (fun s j => check_alert w j s) (seq start len) s))
         i
       = nth_error (alerts (check_alert w i s_i)) i.
Proof.
  revert start s; induction len as [|len IH]; intros start s Hi Hr;
    [lia|].
  simpl. destruct (Nat.eq_dec start i) as [-> | Hne].
  - exists s. split; [exact Hi|].
    apply loop_other. rewrite in_seq. lia.
  - apply IH; [|lia]. now rewrite check_alert_other.
Qed.

Lemma cycle_visits (w : World) (i : nat) (a : Alert) (s : State) :
  nth_error (alerts s) i = Some a ->
  exists s_i,
    nth_error (alerts s_i) i = Some a
    /\ nth_error (alerts (check_alerts_and_notify w s)) i
       = nth_error (alerts (check_alert w i s_i)) i.
Proof.
  intros Hi. unfold check_alerts_and_notify.
  apply loop_visits; [exact Hi|].
  pose proof (nth_error_in_range _ _ Hi). lia.
Qed.

(** C5. If the price source fails for a symbol, then over any number of
    evaluation cycles every alert on that symbol stays exactly as it was
    and no history record for that symbol is added; the cycle is not
    aborted: an alert whose symbol is answered with the price [p] has,
    after one cycle, the flag that the test on [p] gives it. *)
Theorem failed_source_skips_symbol (w : World) (sym : string) :
  source_fails w sym ->
  forall (n : nat) (s : State),
    (forall i a,
        nth_error (alerts s) i = Some a -> symbol a = sym ->
        nth_error (alerts (cycles w n s)) i = Some a)
    /\ (exists added,
           alert_history (cycles w n s) = alert_history s ++ added
           /\ Forall (fun r => rec_symbol r <> sym) added)
    /\ (forall i a p,
           nth_error (alerts s) i = Some a ->
           (forall t, fetched w t (symbol a) = Some p) ->
           triggered_in i (check_alerts_and_notify w s)
           = triggered a || trigger_of a p).
Proof.
  intros Hfail n s. split; [|split].
  - apply cycles_rel
      with (R := fun s s' =>
                   forall i a,
                     nth_error (alerts s) i = Some a -> symbol a = sym ->
                     nth_error (alerts s') i = Some a).
    + auto.
    + eauto.
    + intros j s0 i a Hi Hs.
      destruct (check_alert_summary w j s0)
        as [(-> & _) | (a0 & p & Hj & _ & Hf & _ & -> & _)];
        [exact Hi|].
      destruct (Nat.eq_dec j i) as [-> | Hne].
      * rewrite Hi in Hj. injection Hj as <-.
        rewrite Hs, (source_fails_fetched _ Hfail) in Hf. discriminate.
      * now rewrite setitem_other.
  - apply cycles_rel
      with (R := fun s s' =>
                   exists added,
                     alert_history s' = alert_history s ++ added
                     /\ Forall (fun r => rec_symbol r <> sym) added).
    + intros s0. exists []. now rewrite app_nil_r.
    + intros s1 s2 s3 (a1 & H1 & F1) (a2 & H2 & F2).
      exists (a1 ++ a2). rewrite H2, H1, <- app_assoc.
      split; [reflexivity | now apply Forall_app].
    + intros j s0.
      destruct (check_alert_summary w j s0)
        as [(_ & -> & _) | (a0 & p & _ & _ & Hf & _ & _ & -> & _)].
      * exists []. now rewrite app_nil_r.
      * eexists. split; [reflexivity|].
        constructor; [|constructor]. simpl. intros E.
        rewrite E, (source_fails_fetched _ Hfail) in Hf. discriminate.
  - intros i a p Hi Hp.
    destruct (cycle_visits w i s Hi) as (s_i & Hsi & Heq).
    unfold triggered_in at 1. rewrite Heq.
    fold (triggered_in i (check_alert w i s_i)).
    destruct (triggered a) eqn:Ht; simpl.
    + unfold check_alert, triggered_in. now rewrite Hsi, Ht, Hsi.
    + apply check_alert_flag; auto.
Qed.

Lemma failed_source_skips_symbol_witness :
  nth_error
    (alerts (cycles w_aapl_down 2 (watching [aapl_150; msft_200]))) 0
  = Some aapl_150.
Proof.
  refine (proj1 (@failed_source_skips_symbol w_aapl_down "AAPL" _ 2
                   (watching [aapl_150; msft_200]))
            0 aapl_150 eq_refl eq_refl).
  intros t period interval. reflexivity.
Defined.

End Source.

(** ** Bulk clear *)

Module Clear.
Import AppCode Obs StepFacts Cycle Buttons Examples.

(** With no alerts there is nothing to iterate over. *)
Lemma cycles_nil (w : World) (n : nat) (s : State) :
  alerts s = [] -> cycles w n s = s.
Proof.
  intros H. induction n as [|n IH]; simpl; [reflexivity|].
  unfold check_alerts_and_notify. rewrite H. simpl. exact IH.
Qed.

Lemma monitoring_nil (w : World) (s : State) :
  alerts s = [] -> monitoring w s = s.
Proof.
  intros H. unfold monitoring. destruct (running s); [|reflexivity].
  apply (cycles_nil w 1 s H).
Qed.

(** What a run does when the list is empty and "Set Alert" is not
    clicked. *)
Lemma rerun_nil (w : World) (u : Widgets) (s : State) :
  alerts s = [] ->
  (forall e p t, click u <> SetAlert e p t) ->
  alerts (rerun w u s) = []
  /\ alert_history (rerun w u s) = alert_history s
  /\ toasts (rerun w u s) = toasts s
  /\ mails (rerun w u s) = mails s.
Proof.
  intros Hs Hc.
  destruct (first_tabs_summary w u s) as (Ft & Fm & Fh & Fa).
  assert (Fnil : alerts (first_tabs w u s) = []).
  { destruct Fa as [-> | (e & p & t & a & E & _)]; [exact Hs|].
    now destruct (Hc e p t). }
  destruct (rerun_cases w u s) as [-> | ->]; [auto|].
  destruct (alerts_tab_summary (click u) (tick (first_tabs w u s)))
    as (Tt & Tm & _ & Th & Ta).
  assert (Tnil : alerts (alerts_tab (click u) (tick (first_tabs w u s))) = []).
  { destruct (click u); try (rewrite Ta; exact Fnil). exact Ta. }
  rewrite monitoring_nil by exact Tnil.
  rewrite Tt, Tm, Th by (right; exact Fnil). auto.
Qed.

(** C6. "Remove all alerts" leaves the empty list, in the handler and
    after the monitoring block that follows it, which adds nothing to the
    history, the toasts and the e-mails; any number of evaluation cycles
    on the empty list changes nothing at all; and in any sequence of runs
    of the script that starts with no alerts and in which "Set Alert" is
    not clicked, the list stays empty and the history, the toasts and the
    e-mails stay as they were. *)
Theorem bulk_clear_then_silence :
  (forall s : State, alerts (remove_all_alerts s) = [])
  /\ (forall (w : World) (s : State),
         let s' := monitoring w (alerts_tab RemoveAllAlerts s) in
         alerts s' = [] /\ alert_history s' = alert_history s
         /\ toasts s' = toasts s /\ mails s' = mails s)
  /\ (forall (w : World) (n : nat) (s : State),
         cycles w n (with_alerts [] s) = with_alerts [] s)
  /\ (forall (w : World) (runs : list Widgets) (s : State),
         alerts s = [] ->
         Forall (fun u => forall e p t, click u <> SetAlert e p t) runs ->
         alerts (session w runs s) = []
         /\ alert_history (session w runs s) = alert_history s
         /\ toasts (session w runs s) = toasts s
         /\ mails (session w runs s) = mails s).
Proof.
  split; [exact remove_all_alerts_alerts|].
  split.
  { intros w s s'. subst s'.
    rewrite monitoring_nil by apply remove_all_alerts_alerts.
    destruct (remove_all_alerts_history s) as (Rh & _ & Rt & Rm).
    simpl. rewrite remove_all_alerts_alerts. auto. }
  split; [intros w n s; now apply cycles_nil|].
  intros w runs. induction runs as [|u runs IH]; intros s Hs Hr;
    [simpl; auto|].
  inversion Hr as [|x xs Hc Hr' E]; subst. simpl.
  destruct (rerun_nil w u s Hs Hc) as (R1 & R2 & R3 & R4).
  destruct (IH (rerun w u s) R1 Hr') as (I1 & I2 & I3 & I4).
  rewrite I1, I2, I3, I4, R2, R3, R4. auto.
Qed.

Lemma bulk_clear_then_silence_witness :
  alerts
    (session (w_seq [151%float])
       [ui "AAPL" NoClick; ui "AAPL" ClearAlertHistory]
       (rerun (w_seq [151%float]) (ui "AAPL" RemoveAllAlerts)
          (watching [aapl_150])))
  = [].
Proof.
  refine (proj1 (proj2 (proj2 (proj2 bulk_clear_then_silence))
                   (w_seq [151%float])
                   [ui "AAPL" NoClick; ui "AAPL" ClearAlertHistory]
                   (rerun (w_seq [151%float]) (ui "AAPL" RemoveAllAlerts)
                      (watching [aapl_150]))
                   eq_refl _)).
  repeat constructor; simpl; discriminate.
Defined.

End Clear.

(** ** The ids *)

Module Ids.
Import AppCode Obs StepFacts Cycle Buttons Once Clear Examples.

Lemma ids_cycles (w : World) (n : nat) (s : State) :
  map id (alerts (cycles w n s)) = map id (alerts s).
Proof.
  apply cycles_rel
    with (R := fun s s' => map id (alerts s') = map id (alerts s));
    [reflexivity | intros; congruence |].
  intros i s0.
  destruct (check_alert_summary w i s0)
    as [(-> & _) | (a & p & Hi & _ & _ & _ & -> & _)]; [reflexivity|].
  destruct (setitem_split i (fired (utcnow_isoformat w (S (ticks s0))) a)
              (alerts s0) Hi) as (pre & post & E1 & -> & _).
  rewrite E1. now rewrite !map_app.
Qed.

Lemma ids_monitoring (w : World) (s : State) :
  map id (alerts (monitoring w s)) = map id (alerts s).
Proof.
  unfold monitoring. destruct (running s); [|reflexivity].
  apply (ids_cycles w 1 s).
Qed.

Lemma numbered_same_ids (l l' : list Alert) :
  map id l' = map id l -> numbered l -> numbered l'.
Proof.
  unfold numbered. intros E H.
  assert (L : List.length l' = List.length l).
  { rewrite <- (length_map id l'), E. apply length_map. }
  now rewrite E, L.
Qed.

Lemma numbered_snoc (l : list Alert) (a : Alert) :
  numbered l ->
  id a = (Z.of_nat (List.length l) + 1)%Z ->
  numbered (l ++ [a]).
Proof.
  unfold numbered. intros H E.
  rewrite map_app, length_app, H. simpl.
  rewrite Nat.add_1_r, seq_S, map_app. simpl.
  rewrite E. do 3 f_equal. lia.
Qed.

Lemma numbered_NoDup (l : list Alert) :
  numbered l -> NoDup (map id l).
Proof.
  unfold numbered. intros ->.
  apply Injective_map_NoDup; [|apply seq_NoDup].
  intros x y H. lia.
Qed.

Lemma numbered_rerun (w : World) (u : Widgets) (s : State) :
  numbered (alerts s) -> numbered (alerts (rerun w u s)).
Proof.
  intros H.
  assert (H1 : numbered (alerts (first_tabs w u s))).
  { destruct (first_tabs_summary w u s)
      as (_ & _ & _ & [-> | (e & p & t & a & _ & -> & Hid & _)]);
      [exact H | now apply numbered_snoc]. }
  destruct (rerun_cases w u s) as [-> | ->]; [exact H1|].
  apply numbered_same_ids
    with (l := alerts (alerts_tab (click u) (tick (first_tabs w u s))));
    [apply ids_monitoring|].
  destruct (alerts_tab_summary (click u) (tick (first_tabs w u s)))
    as (_ & _ & _ & _ & Ha).
  destruct (click u); try (rewrite Ha; exact H1).
  rewrite Ha. reflexivity.
Qed.

Lemma numbered_session (w : World) (runs : list Widgets) (s : State) :
  numbered (alerts s) -> numbered (alerts (session w runs s)).
Proof.
  revert s; induction runs as [|u runs IH]; intros s H; simpl;
    [exact H|].
  apply IH. now apply numbered_rerun.
Qed.

(** C7, as the code has it.  A record accepted by "Set Alert" is added at
    the end of the list with the id [len(alerts) + 1]; so, in every state
    that a session reaches from the fresh one, the ids of the records of
    the list are 1, 2, ..., n in list order, hence pairwise distinct, and
    evaluation never changes them. *)
Theorem ids_number_the_collection :
  (forall (w : World) (runs : list Widgets),
      numbered (alerts (session w runs init))
      /\ NoDup (map id (alerts (session w runs init))))
  /\ (forall (w : World) (n : nat) (s : State),
         map id (alerts (cycles w n s)) = map id (alerts s))
  /\ (forall (w : World) (sym e : string) (p : float) (t : string)
             (s : State),
         Py.truthy e = true -> Py.gt p 0 = true ->
         exists a,
           alerts (set_alert w sym e p t s) = alerts s ++ [a]
           /\ id a = (Z.of_nat (List.length (alerts s)) + 1)%Z
           /\ triggered a = false).
Proof.
  split; [|split].
  - intros w runs.
    assert (H : numbered (alerts (session w runs init)))
      by (apply numbered_session; reflexivity).
    split; [exact H | now apply numbered_NoDup].
  - apply ids_cycles.
  - intros w sym e p t s He Hp. rewrite set_alert_alerts, He, Hp. simpl.
    eexists. split; [reflexivity|]. simpl. auto.
Qed.

Lemma ids_number_the_collection_witness :
  exists a,
    alerts (set_alert (w_seq [100%float]) "AAPL" "me@example.org"
              150.0%float RisesTo init)
    = alerts init ++ [a]
    /\ id a = (Z.of_nat (List.length (alerts init)) + 1)%Z
    /\ triggered a = false.
Proof.
  exact (proj2 (proj2 ids_number_the_collection)
           (w_seq [100%float]) "AAPL" "me@example.org" 150.0%float RisesTo
           init eq_refl eq_refl).
Defined.

(** The ids are not unique over the records ever created: with the
    monitoring started and AAPL at 151.00, an alert at 150.00 is created
    with id 1 and fires, "Remove all alerts" empties the list, and the
    next alert, at 120.00, is created with id 1 again. *)
Lemma id_reused_after_clear :
  ~ (forall (w : World) (runs : list Widgets),
        NoDup (map id (created w runs init))).
Proof.
  intros H.
  specialize
    (H (w_seq [151%float])
       [ui "AAPL" StartMonitoring;
        ui "AAPL" (SetAlert "me@example.org" 150.0%float rises);
        ui "AAPL" RemoveAllAlerts;
        ui "AAPL" (SetAlert "me@example.org" 120.0%float rises)]).
  vm_compute in H.
  inversion H as [|x l Hnotin _ E]. apply Hnotin. left. reflexivity.
Qed.

End Ids.

(** ** Rejected submissions *)

Module Submission.
Import AppCode Obs StepFacts Cycle Buttons Clear Ids Examples.

(** A price that is at most zero is not above zero. *)
Lemma not_positive (p : float) : Py.le p 0 = true -> Py.gt p 0 = false.
Proof.
  unfold Py.le, Py.gt. rewrite leb_spec, ltb_spec.
  change (Prim2SF 0) with (S754_zero false).
  destruct (Prim2SF p) as [s|s| |s m e]; try destruct s; cbv;
    congruence.
Qed.

Lemma set_alert_rejects (w : World) (sym e : string) (p : float)
    (t : string) (s : State) :
  Py.truthy e && Py.gt p 0 = false ->
  set_alert w sym e p t s
  = emit (st_warning "Enter valid email and price.") s.
Proof.
  intros H. unfold set_alert. now rewrite H.
Qed.

(** C8, as the code has it.  In appcode.py a submission whose price is
    not above zero or whose recipient is empty only shows the warning:
    the handler leaves the list of alerts and the history as they are,
    and the run of the script as a whole adds no record to the list.  In
    data.py a submission whose price is not above zero only shows the
    warning and leaves the list as it is, while the e-mail is optional:
    a submission with a price above zero is added whatever its e-mail. *)
Theorem invalid_submission_rejected :
  (forall (w : World) (sym e : string) (p : float) (t : string) (s : State),
      Py.le p 0 = true \/ Py.gt p 0 = false \/ e = EmptyString ->
      set_alert w sym e p t s
      = emit (st_warning "Enter valid email and price.") s
      /\ alerts (set_alert w sym e p t s) = alerts s
      /\ alert_history (set_alert w sym e p t s) = alert_history s)
  /\ (forall (w : World) (u : Widgets) (e : string) (p : float)
             (t : Radio) (s : State),
         click u = SetAlert e p t ->
         Py.le p 0 = true \/ Py.gt p 0 = false \/ e = EmptyString ->
         map id (alerts (rerun w u s)) = map id (alerts s))
  /\ (forall (f : float -> string) (now sym : string) (p : float)
             (e : string) (s : DataPy.State),
         Py.le p 0 = true \/ Py.gt p 0 = false ->
         DataPy.set_alert f now sym p e s
         = DataPy.emit
             (DataPy.st_warning "Please set a valid alert price.") s
         /\ DataPy.alerts (DataPy.set_alert f now sym p e s)
            = DataPy.alerts s)
  /\ (forall (f : float -> string) (now sym : string) (p : float)
             (e : string) (s : DataPy.State),
         Py.gt p 0 = true ->
         DataPy.alerts (DataPy.set_alert f now sym p e s)
         = DataPy.alerts s
           ++ [ {| DataPy.symbol := sym; DataPy.price := p;
                   DataPy.email := e; DataPy.time := now |} ]).
Proof.
  assert (G : forall (e : string) (p : float),
             Py.le p 0 = true \/ Py.gt p 0 = false \/ e = EmptyString ->
             Py.truthy e && Py.gt p 0 = false).
  { intros e p [H | [H | ->]].
    - rewrite (not_positive H). apply andb_false_r.
    - rewrite H. apply andb_false_r.
    - reflexivity. }
  split; [|split; [|split]].
  - intros w sym e p t s H.
    rewrite (@set_alert_rejects w sym e p t s (G e p H)). auto.
  - intros w u e p t s Hc H.
    assert (H1 : alerts (first_tabs w u s) = alerts s).
    { destruct (first_tabs_summary w u s)
        as (_ & _ & _ & [E | (e' & p' & t' & a & Hc' & _ & _ & _ & He & Hp)]);
        [exact E|].
      rewrite Hc in Hc'. injection Hc' as <- <- <-.
      specialize (G e p H). rewrite He, Hp in G. discriminate. }
    destruct (rerun_cases w u s) as [-> | ->];
      [simpl; now rewrite H1|].
    rewrite ids_monitoring, Hc. simpl. now rewrite H1.
  - intros f now sym p e s H. unfold DataPy.set_alert.
    assert (Hp : Py.gt p 0 = false)
      by (destruct H as [H | H]; [now apply not_positive | exact H]).
    rewrite Hp. auto.
  - intros f now sym p e s Hp. unfold DataPy.set_alert. now rewrite Hp.
Qed.

Lemma invalid_submission_rejected_witness :
  alerts (set_alert (w_seq [100%float]) "AAPL" EmptyString 150.0%float
            RisesTo (watching [msft_200]))
  = alerts (watching [msft_200]).
Proof.
  refine (proj1 (proj2 (proj1 invalid_submission_rejected
                          (w_seq [100%float]) "AAPL" EmptyString
                          150.0%float RisesTo (watching [msft_200]) _))).
  right. right. reflexivity.
Defined.

(** The claim fails on data.py for the empty recipient: its "Set Alert"
    accepts the price 150.00 with no e-mail and adds the record. *)
Lemma data_py_accepts_empty_email :
  ~ (forall (f : float -> string) (now sym : string) (p : float)
            (e : string) (s : DataPy.State),
        Py.le p 0 = true \/ e = EmptyString ->
        DataPy.alerts (DataPy.set_alert f now sym p e s) = DataPy.alerts s).
Proof.
  intros H.
  specialize (H fmt "2024-01-01 00:00:00" "AAPL" 150.0%float EmptyString
                DataPy.init (or_intror eq_refl)).
  vm_compute in H. discriminate.
Qed.

End Submission.

(** ** The history *)

Module History.
Import AppCode Obs StepFacts Cycle Once Examples.

Lemma untriggered_fired (i : nat) (now : string) (a : Alert)
    (l : list Alert) :
  nth_error l i = Some a ->
  triggered a = false ->
  S (untriggered (Py.setitem i (fired now a) l)) = untriggered l.
Proof.
  intros Hi Ht.
  destruct (setitem_split i (fired now a) l Hi) as (pre & post & -> & -> & _).
  unfold untriggered. rewrite !filter_app, !length_app. simpl.
  rewrite Ht. simpl. lia.
Qed.

(** A record that agrees with a state agrees with every later one. *)
Lemma agrees_kept (w : World) (s s' : State) (r : HistoryRecord) :
  keeps s s' -> agrees w s r -> agrees w s' r.
Proof.
  intros K (i & a & Hi & Ht & H).
  destruct (K i a Hi) as (a' & Hi' & [-> | (Hf & _)]); [|congruence].
  exists i, a. auto.
Qed.

(** The records that evaluation adds agree with the final state, and
    there are as many of them as alerts that fired. *)
Lemma added_agree_cycles (w : World) (n : nat) (s : State) :
  keeps s (cycles w n s)
  /\ exists added,
       alert_history (cycles w n s) = alert_history s ++ added
       /\ Forall (agrees w (cycles w n s)) added
       /\ List.length added + untriggered (alerts (cycles w n s))
          = untriggered (alerts s).
Proof.
  apply cycles_rel
    with (R := fun s s' =>
                 keeps s s'
                 /\ exists added,
                      alert_history s' = alert_history s ++ added
                      /\ Forall (agrees w s') added
                      /\ List.length added + untriggered (alerts s')
                         = untriggered (alerts s)).
  - intros s0. split; [apply keeps_refl|].
    exists []. rewrite app_nil_r. auto.
  - intros s1 s2 s3 (K1 & a1 & H1 & F1 & L1) (K2 & a2 & H2 & F2 & L2).
    split; [eapply keeps_trans; eauto|].
    exists (a1 ++ a2). rewrite H2, H1, <- app_assoc, length_app.
    split; [reflexivity|]. split; [|lia].
    apply Forall_app. split; [|exact F2].
    eapply Forall_impl; [|exact F1].
    intros r. now apply agrees_kept.
  - intros i s0. split; [apply keeps_step|].
    destruct (check_alert_summary w i s0)
      as [(Ha & Hh & _) | (a & p & Hi & Ht & Hf & _ & Ha & Hh & _)].
    + exists []. rewrite app_nil_r, Ha. auto.
    + eexists. split; [exact Hh|]. split.
      * constructor; [|constructor].
        exists i, (fired (utcnow_isoformat w (S (ticks s0))) a).
        split.
        { rewrite Ha. apply setitem_same.
          eapply nth_error_in_range; eauto. }
        simpl. repeat split. now exists (ticks s0).
      * rewrite Ha. simpl. now apply untriggered_fired.
Qed.

(** C9. An iteration that fires appends exactly one record to the
    history; its id, symbol, target price, alert type and recipient are
    those of the alert, its actual price is the price fetched, and its
    time is the [triggered_at] that the alert has in the list afterwards.
    An iteration after which the flag of its element is as before appends
    nothing.  Over any number of cycles, the records added agree in this
    way with triggered alerts of the final list, and they are as many as
    the alerts that fired. *)
Theorem history_record_matches_alert :
  (forall (w : World) (i : nat) (s : State) (a : Alert) (p : float),
      nth_error (alerts s) i = Some a ->
      triggered a = false ->
      fetched w (ticks s) (symbol a) = Some p ->
      trigger_of a p = true ->
      exists r a',
        alert_history (check_alert w i s) = alert_history s ++ [r]
        /\ nth_error (alerts (check_alert w i s)) i = Some a'
        /\ rec_id r = id a
        /\ rec_symbol r = symbol a
        /\ rec_target_price r = target_price a
        /\ rec_alert_type r = alert_type a
        /\ rec_recipient_email r = recipient_email a
        /\ rec_actual_price r = p
        /\ triggered a' = true
        /\ triggered_at a' = Some (rec_triggered_at r)
        /\ rec_triggered_at r = utcnow_isoformat w (S (ticks s)))
  /\ (forall (w : World) (i : nat) (s : State),
         triggered_in i (check_alert w i s) = triggered_in i s ->
         alert_history (check_alert w i s) = alert_history s)
  /\ (forall (w : World) (n : nat) (s : State),
         exists added,
           alert_history (cycles w n s) = alert_history s ++ added
           /\ Forall (agrees w (cycles w n s)) added
           /\ List.length added + untriggered (alerts (cycles w n s))
              = untriggered (alerts s)).
Proof.
  split; [|split].
  - intros w i s a p Hi Ht Hf Hc.
    destruct (check_alert_fires_fields w i s Hi Ht Hf Hc) as (Ha & Hh & _).
    exists (history_record (fired (utcnow_isoformat w (S (ticks s))) a) p),
           (fired (utcnow_isoformat w (S (ticks s))) a).
    split; [exact Hh|]. split.
    + rewrite Ha. apply setitem_same. eapply nth_error_in_range; eauto.
    + simpl. repeat split.
  - intros w i s Hflag.
    destruct (check_alert_summary w i s)
      as [(_ & Hh & _) | (a & p & Hi & Ht & _ & _ & Ha & _)]; [exact Hh|].
    exfalso. unfold triggered_in in Hflag.
    rewrite Ha, Hi, setitem_same in Hflag
      by (eapply nth_error_in_range; eauto).
    simpl in Hflag. congruence.
  - intros w n s. now destruct (added_agree_cycles w n s).
Qed.

Lemma history_record_matches_alert_witness :
  exists r a',
    alert_history (check_alert (w_seq [151%float]) 0 (watching [aapl_150]))
    = alert_history (watching [aapl_150]) ++ [r]
    /\ nth_error
         (alerts (check_alert (w_seq [151%float]) 0 (watching [aapl_150])))
         0
       = Some a'
    /\ rec_id r = id aapl_150
    /\ rec_symbol r = symbol aapl_150
    /\ rec_target_price r = target_price aapl_150
    /\ rec_alert_type r = alert_type aapl_150
    /\ rec_recipient_email r = recipient_email aapl_150
    /\ rec_actual_price r = 151%float
    /\ triggered a' = true
    /\ triggered_at a' = Some (rec_triggered_at r)
    /\ rec_triggered_at r
       = utcnow_isoformat (w_seq [151%float])
           (S (ticks (watching [aapl_150]))).
Proof.
  exact (proj1 history_record_matches_alert (w_seq [151%float]) 0
           (watching [aapl_150]) aapl_150 151%float
           eq_refl eq_refl eq_refl eq_refl).
Defined.

End History.

(** ** data.py: [check_alerts] *)

Module Filter.
Import DataPy.

Lemma check_alerts_loop_acc (l : list Alert) (sym : string)
    (cp : float) (acc : list Alert) :
  check_alerts_loop l sym cp acc
  = acc ++ filter (fun a => String.eqb (symbol a) sym
                              && Py.ge cp (price a)) l.
Proof.
  revert acc; induction l as [|a l IH]; intros acc; simpl.
  - now rewrite app_nil_r.
  - destruct (String.eqb (symbol a) sym && Py.ge cp (price a)).
    + rewrite IH, <- app_assoc. reflexivity.
    + apply IH.
Qed.

(** C10. [check_alerts] leaves the session state exactly as it is, and
    its result is the list of the alerts whose symbol is the given one
    and whose price is at most the current price, in the order they have
    in the list of alerts. *)
Theorem check_alerts_is_a_pure_filter (sym : string) (cp : float)
    (s : State) :
  snd (check_alerts sym cp s) = s
  /\ fst (check_alerts sym cp s) = selected sym cp (alerts s)
  /\ (forall a,
         In a (fst (check_alerts sym cp s))
         <-> In a (alerts s) /\ symbol a = sym
             /\ PrimFloat.leb (price a) cp = true).
Proof.
  assert (E : fst (check_alerts sym cp s) = selected sym cp (alerts s)).
  { unfold check_alerts. simpl. now rewrite check_alerts_loop_acc. }
  split; [reflexivity|]. split; [exact E|].
  intros a. rewrite E. unfold selected. rewrite filter_In, andb_true_iff.
  rewrite String.eqb_eq. unfold Py.le. tauto.
Qed.

End Filter.

(** * Further properties of the code *)

(** ** The order of floats *)

Module FloatOrder.
Import AppCode Obs StepFacts Cycle Once Trigger Examples MoreExamples.

Lemma SFleb_trans (x y z : spec_float) :
  SFleb x y = true -> SFleb y z = true -> SFleb x z = true.
Proof.
  unfold SFleb.
  destruct x as [sx|sx| |sx mx ex], y as [sy|sy| |sy my ey],
    z as [sz|sz| |sz mz ez];
    simpl; try congruence;
    try (destruct sx; simpl; try congruence);
    try (destruct sy; simpl; try congruence);
    try (destruct sz; simpl; try congruence).
  all: change (Pos.compare_cont Eq ?a ?b) with (Pos.compare a b).
  all: destruct (Z.compare_spec ex ey); destruct (Z.compare_spec ey ez);
    destruct (Z.compare_spec ex ez); try congruence; try lia; subst.
  all: try (destruct (Pos.compare_spec mx my);
            destruct (Pos.compare_spec my mz);
            destruct (Pos.compare_spec mx mz);
            simpl; try congruence; try lia).
Qed.

(** [<=] on Python floats is transitive. *)
Lemma le_trans (x y z : float) :
  Py.le x y = true -> Py.le y z = true -> Py.le x z = true.
Proof. unfold Py.le. rewrite !leb_spec. apply SFleb_trans. Qed.

(** A NaN is neither below nor above anything. *)
Lemma nan_unordered (x y : float) :
  is_nan x = true -> Py.le x y = false /\ Py.le y x = false.
Proof.
  unfold is_nan, Py.le. rewrite negb_true_iff, eqb_spec, !leb_spec.
  unfold SFeqb, SFleb.
  destruct (Prim2SF x) as [sx|sx| |sx mx ex]; simpl.
  - congruence.
  - destruct sx; congruence.
  - intros _. split; [reflexivity|]. now destruct (Prim2SF y).
  - destruct sx; rewrite Z.compare_refl;
      change (Pos.compare_cont Eq mx mx) with (Pos.compare mx mx);
      rewrite Pos.compare_refl; simpl; congruence.
Qed.

Lemma trigger_of_nan (a : Alert) (p : float) :
  is_nan p = true \/ is_nan (target_price a) = true ->
  trigger_of a p = false.
Proof.
  intros H. unfold trigger_of, Py.ge.
  fold (Py.le (target_price a) p). 
  assert (E : Py.le (target_price a) p = false
              /\ Py.le p (target_price a) = false).
  { destruct H as [H | H].
    - destruct (nan_unordered p (target_price a) H). auto.
    - destruct (nan_unordered (target_price a) p H). auto. }
  destruct E as [-> ->]. now rewrite !andb_false_r.
Qed.

(** The alerts that [check_alerts] of data.py returns. *)
Lemma check_alerts_In (sym : string) (cp : float) (s : DataPy.State)
    (a : DataPy.Alert) :
  In a (fst (DataPy.check_alerts sym cp s))
  <-> In a (DataPy.alerts s) /\ DataPy.symbol a = sym
      /\ Py.le (DataPy.price a) cp = true.
Proof.
  unfold DataPy.check_alerts. simpl.
  rewrite Filter.check_alerts_loop_acc. simpl.
  rewrite filter_In, andb_true_iff, String.eqb_eq. unfold Py.ge, Py.le.
  tauto.
Qed.

(** X1. A closing price that is NaN fires nothing.  [dropna(how="all")]
    keeps a row whose close is missing as long as another column is not,
    so the latest price can be NaN; the iteration of an untriggered alert
    then leaves the alerts and the history as they are and shows no toast
    and sends no e-mail, whatever the type and the target of the alert;
    the same holds for an alert whose target is NaN. *)
Theorem nan_price_never_fires (w : World) (i : nat) (s : State) (a : Alert)
    (p : float) :
  nth_error (alerts s) i = Some a ->
  fetched w (ticks s) (symbol a) = Some p ->
  is_nan p = true \/ is_nan (target_price a) = true ->
  alerts (check_alert w i s) = alerts s
  /\ alert_history (check_alert w i s) = alert_history s
  /\ toasts (check_alert w i s) = toasts s
  /\ mails (check_alert w i s) = mails s.
Proof.
  intros Hi Hf Hn.
  destruct (check_alert_summary w i s)
    as [H | (a0 & p0 & Hi0 & _ & Hf0 & Hc & _)]; [exact H|].
  rewrite Hi in Hi0. injection Hi0 as <-.
  rewrite Hf in Hf0. injection Hf0 as <-.
  rewrite (trigger_of_nan a p Hn) in Hc. discriminate.
Qed.

Lemma nan_price_never_fires_witness :
  alerts (check_alert w_no_close 0 (watching [aapl_150]))
  = alerts (watching [aapl_150]).
Proof.
  refine (proj1 (@nan_price_never_fires w_no_close 0 (watching [aapl_150])
                   aapl_150 nan eq_refl eq_refl _)).
  left. reflexivity.
Defined.

(** X2. The thresholds are monotone in the price.  If a "rises to" alert
    passes the test of lines 296-301 at a price, it passes it at every
    price that is at least as high, and a "falls to" alert at every price
    that is at most as low; in data.py every alert that [check_alerts]
    returns at a price is returned at every higher price. *)
Theorem thresholds_are_monotone :
  (forall (a : Alert) (p q : float),
      trigger_of a p = true ->
      (alert_type a = RisesTo /\ Py.le p q = true)
      \/ (alert_type a = FallsTo /\ Py.le q p = true) ->
      trigger_of a q = true)
  /\ (forall (sym : string) (p q : float) (s : DataPy.State)
             (a : DataPy.Alert),
         Py.le p q = true ->
         In a (fst (DataPy.check_alerts sym p s)) ->
         In a (fst (DataPy.check_alerts sym q s))).
Proof.
  split.
  - intros a p q Hp [[Ht Hle] | [Ht Hle]].
    + rewrite (trigger_of_rises a p Ht) in Hp.
      rewrite (trigger_of_rises a q Ht).
      unfold Py.ge in *. fold (Py.le (target_price a) p) in Hp.
      fold (Py.le (target_price a) q). eapply le_trans; eauto.
    + rewrite (trigger_of_falls a p Ht) in Hp.
      rewrite (trigger_of_falls a q Ht). eapply le_trans; eauto.
  - intros sym p q s a Hle. rewrite !check_alerts_In.
    intros (Hin & Hs & Hl). repeat split; auto.
    exact (le_trans Hl Hle).
Qed.

Lemma thresholds_are_monotone_witness :
  trigger_of aapl_150 151%float = true.
Proof.
  refine (proj1 thresholds_are_monotone aapl_150 150.0%float 151%float
            eq_refl _).
  left. split; reflexivity.
Defined.

End FloatOrder.

(** ** The price source as [fetch_intraday] shows it *)

Module Fetch.
Import AppCode Obs StepFacts Cycle Examples MoreExamples.

(** X3. [fetch_intraday] never raises and never returns a row in which
    every column is missing: its frame holds exactly the rows of the
    downloaded frame that have a value, and none if the download raised
    or returned no frame; it makes one download, shows the error message
    exactly when the download raised, and touches neither the alerts nor
    the history; the price read from its frame is the close of the last
    row that has a value. *)
Theorem fetch_intraday_contract (w : World) (sym per itv : string)
    (s : State) :
  let d := yf_download w (ticks s) sym per itv in
  let df := fst (fetch_intraday w sym per itv s) in
  let s' := snd (fetch_intraday w sym per itv s) in
  Forall (fun r => all_nan r = false) df
  /\ (forall r,
         In r df
         <-> exists frame, d = Frame frame /\ In r frame /\ all_nan r = false)
  /\ last_close df
     = match d with
       | Frame frame =>
           option_map Close
             (last (map Some (filter (fun r => negb (all_nan r)) frame)) None)
       | _ => None
       end
  /\ alerts s' = alerts s /\ alert_history s' = alert_history s
  /\ running s' = running s /\ ticks s' = S (ticks s)
  /\ effects s'
     = match d with
       | Raised e =>
           effects s
           ++ [st_error (Py.fstr ["Error fetching "; sym; ": "; e])]
       | _ => effects s
       end.
Proof.
  intros d df s'. subst df s'. rewrite fetch_intraday_frame. fold d.
  assert (Hs : snd (fetch_intraday w sym per itv s)
               = match d with
                 | Raised e =>
                     emit (st_error
                             (Py.fstr ["Error fetching "; sym; ": "; e]))
                       (tick s)
                 | _ => tick s
                 end).
  { unfold fetch_intraday. fold d. now destruct d. }
  rewrite Hs. clear Hs.
  assert (Hf : frame_of d
               = match d with
                 | Frame frame => filter (fun r => negb (all_nan r)) frame
                 | _ => []
                 end).
  { destruct d as [e| |[|r frame]]; reflexivity. }
  rewrite Hf. clear Hf.
  split; [|split; [|split]].
  - destruct d as [e| |frame]; try constructor.
    apply Forall_forall. intros r Hr. apply filter_In in Hr.
    now apply negb_true_iff.
  - intros r. destruct d as [e| |frame]; simpl.
    + split; [tauto | intros (f & H & _); discriminate].
    + split; [tauto | intros (f & H & _); discriminate].
    + rewrite filter_In, negb_true_iff. split.
      * intros [H1 H2]. now exists frame.
      * intros (f & [= <-] & H1 & H2). auto.
  - now destruct d.
  - destruct d; simpl; auto 10.
Qed.

End Fetch.

(** ** What a session keeps *)

Module Session.
Import AppCode Obs Inv StepFacts Cycle Buttons Once Clear History Examples
  MoreExamples.

(** The record that an accepted "Set Alert" adds. *)
Lemma first_tabs_alerts (w : World) (u : Widgets) (s : State) :
  alerts (first_tabs w u s) = alerts s
  \/ exists e p t now,
       click u = SetAlert e p t
       /\ Py.truthy e = true /\ Py.gt p 0 = true
       /\ alerts (first_tabs w u s)
          = alerts s
            ++ [ {| id := Z.of_nat (List.length (alerts s)) + 1;
                    symbol := symbol_select u; target_price := p;
                    alert_type := label t; recipient_email := e;
                    triggered := false; created_at := now;
                    triggered_at := None |} ].
Proof.
  unfold first_tabs.
  match goal with
  | |- context [fetch_intraday w (symbol_select u) "7d" "5m" ?s1] =>
      assert (H1 : alerts s1 = alerts s) by (destruct (click u); reflexivity);
      destruct (fetch_then w (symbol_select u) "7d" "5m" s1)
        as (df & s2 & -> & Ha & _)
  end.
  rewrite H1 in Ha.
  destruct (empty df); [left; exact Ha|].
  destruct (click u) as [ | | |e p t| | ] eqn:Hc; auto.
  rewrite set_alert_alerts, Ha.
  destruct (Py.truthy e) eqn:E1; destruct (Py.gt p 0) eqn:E2; simpl; auto.
  right. exists e, p, t, (utcnow_isoformat w (ticks s2)). auto.
Qed.

Lemma first_tabs_running (w : World) (u : Widgets) (s : State) :
  running (first_tabs w u s)
  = match click u with
    | StartMonitoring => true
    | StopMonitoring => false
    | _ => running s
    end.
Proof.
  unfold first_tabs.
  match goal with
  | |- context [fetch_intraday w (symbol_select u) "7d" "5m" ?s1] =>
      assert (H1 : running s1
                   = match click u with
                     | StartMonitoring => true
                     | StopMonitoring => false
                     | _ => running s
                     end) by (destruct (click u); reflexivity);
      destruct (fetch_then w (symbol_select u) "7d" "5m" s1)
        as (df & s2 & -> & _ & _ & Hr & _)
  end.
  rewrite <- H1, <- Hr.
  destruct (empty df); [reflexivity|].
  destruct (click u) as [ | | |e p t| | ]; try reflexivity.
  now destruct (set_alert_history w (symbol_select u) e p (label t) s2)
    as (_ & Hrun & _).
Qed.

(** A property of the records that firing preserves holds of the whole
    list after evaluation if it did before. *)
Lemma Forall_kept (P : Alert -> Prop) (s s' : State) :
  (forall a now, P a -> triggered a = false -> P (fired now a)) ->
  keeps s s' ->
  List.length (alerts s') = List.length (alerts s) ->
  Forall P (alerts s) -> Forall P (alerts s').
Proof.
  intros HP K L F. apply Forall_forall. intros a' Hin.
  destruct (In_nth_error _ _ Hin) as [i Hi].
  assert (Hlt : i < List.length (alerts s)).
  { rewrite <- L. eapply nth_error_in_range; eauto. }
  destruct (nth_error (alerts s) i) as [a|] eqn:Ha;
    [|apply nth_error_None in Ha; lia].
  destruct (K i a Ha) as (a'' & Hi'' & Hrel).
  rewrite Hi in Hi''. injection Hi'' as <-.
  assert (Pa : P a).
  { rewrite Forall_forall in F. apply F. eapply nth_error_In; eauto. }
  destruct Hrel as [-> | (Ht & now & ->)]; auto.
Qed.

Lemma well_formed_fired (a : Alert) (now : string) :
  well_formed a -> triggered a = false -> well_formed (fired now a).
Proof.
  intros (H1 & H2 & H3 & _) _. repeat split; auto. simpl. eauto.
Qed.

Lemma well_formed_rerun (w : World) (u : Widgets) (s : State) :
  Forall well_formed (alerts s) -> Forall well_formed (alerts (rerun w u s)).
Proof.
  intros H.
  assert (H1 : Forall well_formed (alerts (first_tabs w u s))).
  { destruct (first_tabs_alerts w u s)
      as [-> | (e & p & t & now & _ & He & Hp & ->)]; [exact H|].
    apply Forall_app. split; [exact H|].
    constructor; [|constructor].
    repeat split; simpl; auto. destruct t; simpl; auto. }
  destruct (rerun_cases w u s) as [-> | ->]; [exact H1|].
  set (s4 := alerts_tab (click u) (tick (first_tabs w u s))).
  assert (H4 : Forall well_formed (alerts s4)).
  { subst s4.
    destruct (alerts_tab_summary (click u) (tick (first_tabs w u s)))
      as (_ & _ & _ & _ & Ha).
    destruct (click u); try (rewrite Ha; exact H1).
    rewrite Ha. constructor. }
  apply Forall_kept with (s := s4); auto.
  - intros a now. apply well_formed_fired.
  - apply monitoring_keeps.
  - apply monitoring_length.
Qed.

(** X4. Every record of the list is well formed at every moment of a
    session: its target price is above zero (hence not NaN), its
    recipient is not empty, its type is one of the two labels of the
    radio button, and it has a time of firing exactly when its flag is
    set. *)
Theorem alerts_stay_well_formed (w : World) (runs : list Widgets) :
  Forall well_formed (alerts (session w runs init)).
Proof.
  assert (G : forall s, Forall well_formed (alerts s) ->
                        Forall well_formed (alerts (session w runs s))).
  { induction runs as [|u runs IH]; intros s H; simpl; [exact H|].
    apply IH. now apply well_formed_rerun. }
  apply G. constructor.
Qed.

(** One run while the monitoring is off. *)
Lemma rerun_stopped (w : World) (u : Widgets) (s : State) :
  match click u with
  | StartMonitoring => False
  | StopMonitoring => True
  | _ => running s = false
  end ->
  running (rerun w u s) = false
  /\ toasts (rerun w u s) = toasts s
  /\ mails (rerun w u s) = mails s
  /\ incl (alert_history (rerun w u s)) (alert_history s)
  /\ (forall a,
         In a (alerts (rerun w u s)) -> triggered a = true ->
         In a (alerts s))
  /\ (click u = StopMonitoring ->
      alerts (rerun w u s) = alerts s
      /\ alert_history (rerun w u s) = alert_history s).
Proof.
  intros Hc.
  assert (Hrun : running (first_tabs w u s) = false).
  { rewrite first_tabs_running. now destruct (click u). }
  destruct (first_tabs_summary w u s) as (Ft & Fm & Fh & _).
  assert (Fa : (forall a, In a (alerts (first_tabs w u s)) ->
                          triggered a = true -> In a (alerts s))
               /\ (click u = StopMonitoring ->
                   alerts (first_tabs w u s) = alerts s)).
  { destruct (first_tabs_alerts w u s)
      as [-> | (e & p & t & now & Hcl & _ & _ & ->)].
    - auto.
    - split; [|intros E; rewrite E in Hcl; discriminate].
      intros a Hin Ht. apply in_app_or in Hin.
      destruct Hin as [Hin | [<- | []]]; [exact Hin | discriminate]. }
  destruct Fa as [Fa1 Fa2].
  destruct (rerun_cases w u s) as [-> | ->].
  - simpl. rewrite Hrun, Fh.
    repeat split; auto; try apply incl_refl; now apply Fa2.
  - destruct (alerts_tab_summary (click u) (tick (first_tabs w u s)))
      as (Tt & Tm & Tr & Th & Ta).
    change (running (tick (first_tabs w u s)))
      with (running (first_tabs w u s)) in Tr.
    change (toasts (tick (first_tabs w u s)))
      with (toasts (first_tabs w u s)) in Tt.
    change (mails (tick (first_tabs w u s)))
      with (mails (first_tabs w u s)) in Tm.
    change (alert_history (tick (first_tabs w u s)))
      with (alert_history (first_tabs w u s)) in Th.
    change (alerts (tick (first_tabs w u s)))
      with (alerts (first_tabs w u s)) in Th, Ta.
    rewrite Hrun in Tr. rewrite Ft in Tt. rewrite Fm in Tm.
    rewrite Fh in Th.
    assert (Hm : monitoring w (alerts_tab (click u) (tick (first_tabs w u s)))
                 = alerts_tab (click u) (tick (first_tabs w u s)))
      by (unfold monitoring; now rewrite Tr).
    rewrite Hm. split; [exact Tr|]. split; [exact Tt|]. split; [exact Tm|].
    split; [|split].
    + destruct (click u) eqn:E;
        try (rewrite Th by (left; discriminate); apply incl_refl).
      simpl. unfold clear_alert_history.
      destruct (negb _); simpl; [intros x []|].
      rewrite Fh. apply incl_refl.
    + intros a Hin Htr. apply Fa1; [|exact Htr].
      destruct (click u); try (rewrite Ta in Hin; exact Hin).
      rewrite Ta in Hin. destruct Hin.
    + intros E. rewrite E in Th, Ta. rewrite E.
      rewrite Ta, Th by (left; discriminate).
      split; [now apply Fa2 | reflexivity].
Qed.

(** X5. Alerts fire only while the monitoring runs.  In a session that
    starts with the monitoring off (as a fresh session does) and in which
    "Start Monitoring" is not clicked, no toast is shown, no e-mail is
    sent, no record is added to the history and no alert becomes
    triggered; and "Stop Monitoring" takes effect in the very run of the
    click, which evaluates nothing. *)
Theorem nothing_fires_while_stopped :
  (forall (w : World) (runs : list Widgets) (s : State),
      running s = false ->
      Forall (fun u => click u <> StartMonitoring) runs ->
      running (session w runs s) = false
      /\ toasts (session w runs s) = toasts s
      /\ mails (session w runs s) = mails s
      /\ incl (alert_history (session w runs s)) (alert_history s)
      /\ (forall a,
             In a (alerts (session w runs s)) -> triggered a = true ->
             In a (alerts s)))
  /\ (forall (w : World) (u : Widgets) (s : State),
         click u = StopMonitoring ->
         running (rerun w u s) = false
         /\ alerts (rerun w u s) = alerts s
         /\ alert_history (rerun w u s) = alert_history s
         /\ toasts (rerun w u s) = toasts s
         /\ mails (rerun w u s) = mails s).
Proof.
  split.
  - intros w runs. induction runs as [|u runs IH]; intros s Hs Hr; simpl.
    + repeat split; auto. apply incl_refl.
    + inversion Hr as [|x xs Hc Hr' E]; subst.
      destruct (rerun_stopped w u s) as (R1 & R2 & R3 & R4 & R5 & _).
      { destruct (click u); auto. }
      destruct (IH (rerun w u s) R1 Hr') as (I1 & I2 & I3 & I4 & I5).
      rewrite I2, I3. repeat split; auto.
      all: try (eapply incl_tran; eauto; fail).
      all: try (intros a Hin Ht; apply R5; auto).
  - intros w u s Hc.
    destruct (rerun_stopped w u s) as (R1 & R2 & R3 & _ & _ & R6).
    { now rewrite Hc. }
    destruct (R6 Hc). auto.
Qed.

Lemma nothing_fires_while_stopped_witness :
  mails
    (session (w_seq [151%float])
       [ui "AAPL" (SetAlert "me@example.org" 150.0%float rises);
        ui "AAPL" NoClick] init)
  = mails init.
Proof.
  refine (proj1 (proj2 (proj2
            (proj1 nothing_fires_while_stopped (w_seq [151%float])
               [ui "AAPL" (SetAlert "me@example.org" 150.0%float rises);
                ui "AAPL" NoClick] init eq_refl _)))).
  repeat constructor; simpl; discriminate.
Defined.

End Session.

(** ** The history over a session *)

Module Ledger.
Import AppCode Obs Inv StepFacts Cycle Buttons Once Clear History Session
  Examples MoreExamples.

Lemma agrees_more_alerts (w : World) (s s' : State) (r : HistoryRecord)
    (tail : list Alert) :
  alerts s' = alerts s ++ tail -> agrees w s r -> agrees w s' r.
Proof.
  intros E (i & a & Hi & H). exists i, a. split; [|exact H].
  rewrite E, nth_error_app1; [exact Hi|].
  eapply nth_error_in_range; eauto.
Qed.

Lemma untriggered_app (l1 l2 : list Alert) :
  untriggered (l1 ++ l2) = untriggered l1 + untriggered l2.
Proof. unfold untriggered. now rewrite filter_app, length_app. Qed.

(** The balance of a state: as many history records as triggered alerts,
    each agreeing with one of them. *)
Lemma balance_rerun (w : World) (u : Widgets) (s : State) :
  click u <> RemoveAllAlerts -> click u <> ClearAlertHistory ->
  List.length (alert_history s) + untriggered (alerts s)
  = List.length (alerts s)
  /\ Forall (agrees w s) (alert_history s) ->
  List.length (alert_history (rerun w u s))
  + untriggered (alerts (rerun w u s))
  = List.length (alerts (rerun w u s))
  /\ Forall (agrees w (rerun w u s)) (alert_history (rerun w u s)).
Proof.
  intros Hc1 Hc2 [Hb Hg].
  destruct (first_tabs_summary w u s) as (_ & _ & Fh & _).
  assert (H1 : List.length (alert_history (first_tabs w u s))
               + untriggered (alerts (first_tabs w u s))
               = List.length (alerts (first_tabs w u s))
               /\ Forall (agrees w (first_tabs w u s))
                    (alert_history (first_tabs w u s))).
  { rewrite Fh.
    destruct (first_tabs_alerts w u s)
      as [E | (e & p & t & now & _ & _ & _ & E)].
    - rewrite E. split; [exact Hb|].
      eapply Forall_impl; [|exact Hg].
      intros r. apply agrees_more_alerts with (tail := []).
      now rewrite E, app_nil_r.
    - split.
      + rewrite E, untriggered_app, length_app. simpl.
        unfold untriggered at 2. simpl. lia.
      + eapply Forall_impl; [|exact Hg].
        intros r. eapply agrees_more_alerts. exact E. }
  destruct (rerun_cases w u s) as [-> | ->]; [exact H1|].
  destruct (alerts_tab_summary (click u) (tick (first_tabs w u s)))
    as (_ & _ & _ & Th & Ta).
  set (s4 := alerts_tab (click u) (tick (first_tabs w u s))) in *.
  assert (Ea : alerts s4 = alerts (first_tabs w u s))
    by (destruct (click u); try exact Ta; congruence).
  assert (Eh : alert_history s4 = alert_history (first_tabs w u s))
    by (apply Th; now left).
  destruct H1 as [B1 G1].
  assert (G4 : Forall (agrees w s4) (alert_history s4)).
  { rewrite Eh. eapply Forall_impl; [|exact G1].
    intros r. apply agrees_more_alerts with (tail := []).
    now rewrite Ea, app_nil_r. }
  unfold monitoring. destruct (running s4).
  - destruct (added_agree_cycles w 1 s4) as (K & added & Hh & Hg' & Hn).
    pose proof (length_cycles w 1 s4) as L.
    change (cycles w 1 s4) with (check_alerts_and_notify w s4) in *.
    rewrite Hh, length_app, L. split.
    + rewrite Eh, Ea in *. lia.
    + apply Forall_app. split; [|exact Hg'].
      eapply Forall_impl; [|exact G4].
      intros r. now apply agrees_kept.
  - rewrite Eh, Ea. split; [exact B1 | now rewrite <- Eh].
Qed.

(** X6. The history is the ledger of the triggered alerts.  In a session
    from the fresh state in which neither "Remove all alerts" nor "Clear
    alert history" is clicked, the history has exactly as many records as
    the list has triggered alerts, and every record of it agrees with a
    triggered alert of the list: same id, symbol, target, type and
    recipient, the time of the alert, and a price that was fetched for
    its symbol. *)
Theorem history_is_the_ledger (w : World) (runs : list Widgets) :
  Forall (fun u => click u <> RemoveAllAlerts
                   /\ click u <> ClearAlertHistory) runs ->
  List.length (alert_history (session w runs init))
  + untriggered (alerts (session w runs init))
  = List.length (alerts (session w runs init))
  /\ Forall (agrees w (session w runs init))
       (alert_history (session w runs init)).
Proof.
  assert (G : forall s,
             Forall (fun u => click u <> RemoveAllAlerts
                              /\ click u <> ClearAlertHistory) runs ->
             List.length (alert_history s) + untriggered (alerts s)
             = List.length (alerts s)
             /\ Forall (agrees w s) (alert_history s) ->
             List.length (alert_history (session w runs s))
             + untriggered (alerts (session w runs s))
             = List.length (alerts (session w runs s))
             /\ Forall (agrees w (session w runs s))
                  (alert_history (session w runs s))).
  { induction runs as [|u runs IH]; intros s Hr H; simpl; [exact H|].
    inversion Hr as [|x xs [Hc1 Hc2] Hr' E]; subst.
    apply IH; [exact Hr'|]. now apply balance_rerun. }
  intros Hr. apply G; [exact Hr|]. split; [reflexivity | constructor].
Qed.

Lemma history_is_the_ledger_witness :
  List.length
    (alert_history
       (session (w_seq [151%float])
          [ui "AAPL" StartMonitoring;
           ui "AAPL" (SetAlert "me@example.org" 150.0%float rises);
           ui "AAPL" (SetAlert "me@example.org" 200.0%float rises)] init))
  + untriggered
      (alerts
         (session (w_seq [151%float])
            [ui "AAPL" StartMonitoring;
             ui "AAPL" (SetAlert "me@example.org" 150.0%float rises);
             ui "AAPL" (SetAlert "me@example.org" 200.0%float rises)] init))
  = List.length
      (alerts
         (session (w_seq [151%float])
            [ui "AAPL" StartMonitoring;
             ui "AAPL" (SetAlert "me@example.org" 150.0%float rises);
             ui "AAPL" (SetAlert "me@example.org" 200.0%float rises)] init)).
Proof.
  refine (proj1 (@history_is_the_ledger (w_seq [151%float])
                   [ui "AAPL" StartMonitoring;
                    ui "AAPL" (SetAlert "me@example.org" 150.0%float rises);
                    ui "AAPL" (SetAlert "me@example.org" 200.0%float rises)]
                   _)).
  repeat constructor; simpl; discriminate.
Defined.

(** An e-mail that is for an alert of a state is for an alert of every
    later state. *)
Lemma mail_for_alert_kept (s s' : State) (e : Effect) :
  keeps s s' -> mail_for_alert s e -> mail_for_alert s' e.
Proof.
  intros K. destruct e; simpl; auto.
  intros (i & a & Hi & Ht & H).
  destruct (K i a Hi) as (a' & Hi' & [-> | (Hf & _)]); [|congruence].
  exists i, a. auto.
Qed.

Lemma mails_cycles (w : World) (n : nat) (s : State) :
  keeps s (cycles w n s)
  /\ exists new,
       effects (cycles w n s) = effects s ++ new
       /\ Forall (mail_for_alert (cycles w n s)) new.
Proof.
  apply cycles_rel
    with (R := fun s s' =>
                 keeps s s'
                 /\ exists new,
                      effects s' = effects s ++ new
                      /\ Forall (mail_for_alert s') new).
  - intros s0. split; [apply keeps_refl|].
    exists []. now rewrite app_nil_r.
  - intros s1 s2 s3 (K1 & n1 & E1 & F1) (K2 & n2 & E2 & F2).
    split; [eapply keeps_trans; eauto|].
    exists (n1 ++ n2). rewrite E2, E1, <- app_assoc.
    split; [reflexivity|]. apply Forall_app. split; [|exact F2].
    eapply Forall_impl; [|exact F1].
    intros e. now apply mail_for_alert_kept.
  - intros i s0. split; [apply keeps_step|].
    destruct (check_alert_cases w i s0)
      as [(a & p & Hi & Ht & Hf & Hc) | Hq].
    + destruct (check_alert_fires_fields w i s0 Hi Ht Hf Hc)
        as (Ha & _ & _ & _ & He).
      eexists. split; [exact He|].
      repeat constructor; simpl; auto.
      * exists i, (fired (utcnow_isoformat w (S (ticks s0))) a).
        split; [|auto].
        rewrite Ha. apply setitem_same. eapply nth_error_in_range; eauto.
      * unfold outcome_effect. now destruct (smtp_session _ _ _ _ _).
    + destruct (check_alert_quiet w i s0 Hq) as (_ & _ & _ & [E | [m E]]).
      * exists []. now rewrite app_nil_r.
      * exists [st_error m]. split; [exact E|]. repeat constructor.
Qed.

(** X7. The evaluator writes to nobody else.  Whatever the number of
    cycles, every e-mail sent in their course is addressed to the
    recipient of an alert that is triggered in the final list, under the
    subject of that alert. *)
Theorem mails_go_to_alert_recipients (w : World) (n : nat) (s : State) :
  exists new,
    effects (cycles w n s) = effects s ++ new
    /\ Forall (mail_for_alert (cycles w n s)) new.
Proof. now destruct (mails_cycles w n s). Qed.

End Ledger.

(** ** The cost and the end of a cycle *)

Module Economy.
Import AppCode Obs Inv StepFacts Cycle Buttons Once Trigger Source Session
  Examples MoreExamples.






(** X9. An exception of the download of the second tab ends the run.
    The run then stops after the first tab: the third tab and the
    monitoring block are not reached, so a click on "Remove all alerts"
    or "Clear alert history" is lost and no alert is evaluated; the
    history, the toasts and the e-mails are as before the run, and every
    record of the list is still in its place. *)
Theorem second_tab_failure_ends_the_run (w : World) (u : Widgets)
    (s : State) (e : string) :
  yf_download w (ticks (first_tabs w u s)) (hist_symbol u) (hist_period u)
    (hist_interval u) = Raised e ->
  rerun w u s = tick (first_tabs w u s)
  /\ alert_history (rerun w u s) = alert_history s
  /\ toasts (rerun w u s) = toasts s
  /\ mails (rerun w u s) = mails s
  /\ (forall i a,
         nth_error (alerts s) i = Some a ->
         nth_error (alerts (rerun w u s)) i = Some a)
  /\ ((forall e' p t, click u <> SetAlert e' p t) ->
      alerts (rerun w u s) = alerts s).
Proof.
  intros H.
  assert (E : rerun w u s = tick (first_tabs w u s))
    by (unfold rerun; now rewrite H).
  rewrite E.
  destruct (first_tabs_summary w u s) as (Ft & Fm & Fh & _).
  split; [reflexivity|]. split; [exact Fh|]. split; [exact Ft|].
  split; [exact Fm|].
  destruct (first_tabs_alerts w u s)
    as [Ea | (e' & p & t & now & Hc & _ & _ & Ea)]; simpl; rewrite Ea.
  - auto.
  - split.
    + intros i a Hi. rewrite nth_error_app1; [exact Hi|].
      eapply nth_error_in_range; eauto.
    + intros Hn. now destruct (Hn e' p t).
Qed.

Lemma second_tab_failure_ends_the_run_witness :
  alerts
    (rerun w_hist_down (ui_weekly "AAPL" RemoveAllAlerts)
       (watching [aapl_150]))
  = alerts (watching [aapl_150]).
Proof.
  refine (proj2 (proj2 (proj2 (proj2 (proj2
            (@second_tab_failure_ends_the_run w_hist_down
               (ui_weekly "AAPL" RemoveAllAlerts) (watching [aapl_150])
               "timed out" eq_refl))))) _).
  intros e' p t. discriminate.
Defined.







End Economy.

(** ** The watchlist *)

Module WatchlistFacts.
Import Watchlist.

Lemma contains_In (sym : string) (l : list string) :
  contains sym l = true <-> In sym l.
Proof.
  induction l as [|y l IH]; simpl; [split; [discriminate | tauto]|].
  rewrite orb_true_iff, String.eqb_eq, IH. tauto.
Qed.

Lemma contains_false (sym : string) (l : list string) :
  contains sym l = false <-> ~ In sym l.
Proof.
  rewrite <- contains_In. destruct (contains sym l); split; congruence.
Qed.

(** [remove] on a list that holds the symbol. *)
Lemma list_remove_In (sym : string) (l : list string) :
  In sym l ->
  exists l',
    list_remove sym l = Some l'
    /\ S (List.length l') = List.length l
    /\ (forall y, In y l' -> In y l)
    /\ (forall y, y <> sym -> In y l -> In y l')
    /\ (NoDup l -> NoDup l' /\ ~ In sym l').
Proof.
  induction l as [|y l IH]; simpl; [tauto|].
  intros Hin. destruct (String.eqb_spec y sym) as [-> | Hne].
  - exists l. repeat split; auto.
    + intros z Hz [E | H]; [congruence | exact H].
    + now inversion H.
    + now inversion H.
  - destruct Hin as [E | Hin]; [congruence|].
    destruct (IH Hin) as (l' & -> & Hl & H1 & H2 & H3).
    exists (y :: l'). simpl. repeat split; auto.
    + intros z [E | Hz]; auto.
    + intros z Hz [E | H]; auto.
    + inversion H as [|x xs Hy Hn E]; subst.
      constructor; [|now apply H3]. intros Hy'. apply Hy. now apply H1.
    + inversion H as [|x xs Hy Hn E]; subst.
      intros [E | Hs]; [congruence|]. now apply (proj2 (H3 Hn)).
Qed.

Lemma list_remove_last (sym : string) (l : list string) :
  ~ In sym l -> list_remove sym (l ++ [sym]) = Some l.
Proof.
  induction l as [|y l IH]; simpl; intros H.
  - now rewrite String.eqb_refl.
  - destruct (String.eqb_spec y sym) as [-> | Hne]; [tauto|].
    rewrite IH by tauto. reflexivity.
Qed.

Lemma tidy_step (normalize : string -> string) (c : Click) (s : State) :
  tidy normalize (watchlist s) ->
  exists s',
    step normalize c s = Some s' /\ tidy normalize (watchlist s').
Proof.
  intros [Hn Hf]. destruct c as [x | sym]; simpl.
  - eexists. split; [reflexivity|]. unfold add_to_watchlist.
    destruct (Py.truthy (normalize x)) eqn:Ht; [|now split].
    destruct (contains (normalize x) (watchlist s)) eqn:Hc; simpl;
      [now split|].
    apply contains_false in Hc. split.
    + apply NoDup_app; auto; [repeat constructor; auto|].
      intros y Hy [<- | []]. contradiction.
    + apply Forall_app. split; [exact Hf|]. repeat constructor; eauto.
  - unfold remove_clicked.
    destruct (contains sym (watchlist s)) eqn:Hc; [|eexists; now split].
    apply contains_In in Hc.
    destruct (list_remove_In sym (watchlist s) Hc)
      as (l' & -> & _ & Hsub & _ & Hnd).
    eexists. split; [reflexivity|]. simpl. split; [now apply Hnd|].
    rewrite Forall_forall in *. intros y Hy. apply Hf. now apply Hsub.
Qed.

(** X11. The watchlist stays tidy and its buttons never raise.  Whatever
    is typed and clicked in the sidebar, from the empty watchlist of a
    fresh session, no click raises (the [remove] of the "Remove" button
    always finds its symbol) and the watchlist never holds a symbol
    twice nor an empty symbol: each entry is a non-empty result of
    [strip().upper()]. *)
Theorem watchlist_stays_tidy (normalize : string -> string)
    (l : list Click) :
  exists s,
    clicks normalize l init = Some s
    /\ NoDup (watchlist s)
    /\ Forall (fun y => Py.truthy y = true /\ exists x, y = normalize x)
         (watchlist s).
Proof.
  assert (G : forall s0, tidy normalize (watchlist s0) ->
                         exists s, clicks normalize l s0 = Some s
                                   /\ tidy normalize (watchlist s)).
  { induction l as [|c l IH]; intros s0 H; simpl; [eauto|].
    destruct (@tidy_step normalize c s0 H) as (s1 & -> & H1).
    now apply IH. }
  destruct (G init) as (s & E & Hn & Hf);
    [split; constructor|].
  exists s. auto.
Qed.

(** X12. Adding and removing a symbol.  "Add to watchlist" appends a
    symbol that is not yet listed and changes nothing but the message
    for one that is; "Remove" on a listed symbol of a duplicate-free
    watchlist takes exactly that symbol out and keeps the others; and
    removing a symbol right after adding it gives back the watchlist as
    it was. *)
Theorem add_and_remove (normalize : string -> string) (x : string)
    (s : State) :
  let sym := normalize x in
  Py.truthy sym = true ->
  NoDup (watchlist s) ->
  In sym (watchlist (add_to_watchlist normalize x s))
  /\ (In sym (watchlist s) ->
      watchlist (add_to_watchlist normalize x s) = watchlist s)
  /\ (~ In sym (watchlist s) ->
      watchlist (add_to_watchlist normalize x s) = watchlist s ++ [sym]
      /\ option_map watchlist
           (remove_clicked sym (add_to_watchlist normalize x s))
         = Some (watchlist s))
  /\ (In sym (watchlist s) ->
      exists s',
        remove_clicked sym s = Some s'
        /\ ~ In sym (watchlist s')
        /\ S (List.length (watchlist s')) = List.length (watchlist s)
        /\ (forall y, y <> sym ->
                      (In y (watchlist s') <-> In y (watchlist s)))).
Proof.
  intros sym Ht Hn. subst sym. unfold add_to_watchlist. rewrite Ht.
  destruct (contains (normalize x) (watchlist s)) eqn:Hc; simpl.
  - apply contains_In in Hc. split; [exact Hc|]. split; [reflexivity|].
    split; [tauto|]. intros _.
    unfold remove_clicked. rewrite (proj2 (contains_In _ _) Hc).
    destruct (list_remove_In _ _ Hc) as (l' & -> & Hl & H1 & H2 & H3).
    eexists. split; [reflexivity|]. simpl.
    split; [now apply H3|]. split; [exact Hl|].
    intros y Hy. split; [apply H1 | now apply H2].
  - apply contains_false in Hc.
    split; [apply in_or_app; right; now left|].
    split; [tauto|]. split; [|tauto]. intros _. split; [reflexivity|].
    unfold remove_clicked. simpl.
    assert (Hin : contains (normalize x) (watchlist s ++ [normalize x])
                  = true).
    { apply contains_In. apply in_or_app. right. now left. }
    rewrite Hin, list_remove_last by exact Hc. reflexivity.
Qed.

Lemma add_and_remove_witness :
  In "AAPL"
    (watchlist
       (add_to_watchlist (fun x => x) "AAPL"
          {| watchlist := ["MSFT"]; shown := [] |})).
Proof.
  refine (proj1 (@add_and_remove (fun x => x) "AAPL"
                   {| watchlist := ["MSFT"]; shown := [] |} eq_refl _)).
  repeat constructor. intros [].
Defined.

End WatchlistFacts.

(** ** data.py: a run of the first tab *)

Module DataRunFacts.
Import DataPy DataRun.

Lemma emit_all (f : Alert -> Effect) (l : list Alert) (s : State) :
  fold_left (fun s alert => emit (f alert) s) l s
  = {| alerts := alerts s; effects := effects s ++ map f l |}.
Proof.
  revert s; induction l as [|a l IH]; intros s; simpl.
  - rewrite app_nil_r. now destruct s.
  - rewrite IH. simpl. now rewrite <- app_assoc.
Qed.

(** What lines 106-109 show. *)
Lemma check_triggered_shows (fmt : float -> string) (sym : string)
    (cp : float) (s : State) :
  check_triggered fmt sym cp s
  = {| alerts := alerts s;
       effects := effects s
                  ++ is_reached fmt cp (selected sym cp (alerts s)) |}.
Proof.
  unfold check_triggered, check_alerts.
  rewrite Filter.check_alerts_loop_acc, emit_all. reflexivity.
Qed.

Lemma selected_app (sym : string) (cp : float) (l1 l2 : list Alert) :
  selected sym cp (l1 ++ l2) = selected sym cp l1 ++ selected sym cp l2.
Proof. unfold selected. apply filter_app. Qed.

(** X13. What a run of data.py reports.  The check of lines 106-109
    leaves the alerts as they are and shows exactly one message for each
    alert on the symbol whose price is at most the current price, in the
    order of the list and again in every run; after "Clear All Alerts"
    it shows nothing. *)
Theorem check_triggered_reports (fmt : float -> string) (sym : string)
    (cp : float) (s : State) :
  alerts (check_triggered fmt sym cp s) = alerts s
  /\ effects (check_triggered fmt sym cp s)
     = effects s ++ is_reached fmt cp (selected sym cp (alerts s))
  /\ effects (check_triggered fmt sym cp (check_triggered fmt sym cp s))
     = effects s ++ is_reached fmt cp (selected sym cp (alerts s))
       ++ is_reached fmt cp (selected sym cp (alerts s))
  /\ alerts (check_triggered fmt sym cp (clear_all_alerts s)) = []
  /\ effects (check_triggered fmt sym cp (clear_all_alerts s))
     = effects (clear_all_alerts s).
Proof.
  rewrite !check_triggered_shows. simpl.
  split; [reflexivity|]. split; [reflexivity|].
  split; [now rewrite <- app_assoc|].
  unfold clear_all_alerts. destruct (alerts s) as [|a l] eqn:E; simpl.
  - rewrite E. simpl. now rewrite app_nil_r.
  - now rewrite app_nil_r.
Qed.

(** X14. An alert is checked in the run that sets it.  In a run of the
    first tab of data.py with a symbol, a frame that is not empty and a
    click on "Set Alert" with a price above zero, the new alert is added
    at the end of the list and is reported at once if its price is at
    most the current price; without a symbol or without data the button
    does not exist and the alerts are left alone. *)
Theorem alert_is_checked_when_set (fmt : float -> string)
    (now sym : string) (p : float) (e : string) (closes : list float)
    (cp : float) (s : State) :
  Py.truthy sym = true ->
  current_price_of closes = Some cp ->
  Py.gt p 0 = true ->
  let new := {| symbol := sym; price := p; email := e; time := now |} in
  let s' := live_monitor fmt now sym p e closes true s in
  alerts s' = alerts s ++ [new]
  /\ effects s'
     = effects s
       ++ [st_success (Py.fstr ["Alert set for "; sym; " at $"; fmt p])]
       ++ is_reached fmt cp (selected sym cp (alerts s))
       ++ (if Py.le p cp then [st_success (reached_text fmt new cp)]
           else [])
  /\ (forall clicked,
         alerts (live_monitor fmt now sym p e [] clicked s) = alerts s
         /\ alerts (live_monitor fmt now EmptyString p e closes clicked s)
            = alerts s).
Proof.
  intros Hs Hc Hp new s'. subst s'. unfold live_monitor.
  rewrite Hs, Hc, check_triggered_shows. unfold set_alert. rewrite Hp.
  simpl. fold new. rewrite selected_app. unfold is_reached.
  rewrite map_app, <- !app_assoc. simpl.
  split; [reflexivity|]. split.
  - do 3 f_equal. rewrite String.eqb_refl. simpl.
    now destruct (Py.le p cp).
  - intros clicked. split; reflexivity.
Qed.

Lemma alert_is_checked_when_set_witness :
  alerts
    (live_monitor (fun _ => "#.##") "2024-01-01 00:00:00" "AAPL" 150.0%float
       EmptyString [149.0%float; 151.0%float] true init)
  = alerts init
    ++ [ {| symbol := "AAPL"; price := 150.0%float; email := EmptyString;
            time := "2024-01-01 00:00:00" |} ].
Proof.
  exact (proj1 (@alert_is_checked_when_set (fun _ => "#.##")
                  "2024-01-01 00:00:00" "AAPL" 150.0%float EmptyString
                  [149.0%float; 151.0%float] 151.0%float init
                  eq_refl eq_refl eq_refl)).
Defined.

End DataRunFacts.

(** ** app_alpha.py: the loop *)

Module AppAlphaFacts.
Import AppAlpha.

(** What one pass shows. *)
Lemma pass_shape (w : World) (k : nat) (key sym : string) (p : float) :
  let shown := fst (pass w k key sym p) in
  if snd (pass w k key sym p) then
    filter is_error shown = []
    /\ List.length (filter is_notification shown)
       = (if qualifies w k key sym p then 1 else 0)
  else
    exists pre e,
      shown = pre ++ [st_error (Py.fstr ["Error: "; e])]
      /\ filter is_error pre = []
      /\ filter is_notification pre = [].
Proof.
  unfold pass, qualifies.
  destruct (fetch_data w k sym key) as [e|l]; simpl.
  - exists [], e. auto.
  - destruct (last (map Some l) None) as [cp|]; simpl; [|auto].
    destruct (Py.gt p 0 && Py.ge cp p); simpl; [|auto].
    destruct (notify w k) as [e|]; simpl; [|auto].
    eexists [_], e. split; [reflexivity|]. split; reflexivity.
Qed.

Lemma passes_S (w : World) (n k : nat) (key sym : string) (p : float) :
  passes w (S n) k key sym p
  = if snd (pass w k key sym p) then
      (fst (pass w k key sym p) ++ fst (passes w n (S k) key sym p),
       snd (passes w n (S k) key sym p))
    else (fst (pass w k key sym p), false).
Proof.
  simpl. destruct (pass w k key sym p) as [shown go]. simpl.
  destruct go; [|reflexivity].
  now destruct (passes w n (S k) key sym p).
Qed.


(** X16. The desktop alert has no memory.  While the loop runs, it
    notifies in every pass in which the frame is not empty, the alert
    price is above zero and the last price is at least the alert price:
    the notifications of the first passes are as many as those passes,
    so that a price that stays above the target notifies at every
    refresh; with the alert price left at zero it never notifies. *)
Theorem desktop_alert_repeats (w : World) (n k : nat) (key sym : string)
    (p : float) :
  (snd (passes w n k key sym p) = true ->
   List.length (filter is_notification (fst (passes w n k key sym p)))
   = List.length
       (filter (fun j => qualifies w j key sym p) (seq k n)))
  /\ (Py.gt p 0 = false ->
      filter is_notification (fst (passes w n k key sym p)) = []).
Proof.
  split.
  - revert k; induction n as [|n IH]; intros k; [reflexivity|].
    rewrite passes_S.
    pose proof (pass_shape w k key sym p) as Hp. cbv zeta in Hp.
    destruct (snd (pass w k key sym p)) eqn:Hgo; cbn [fst snd];
      [|discriminate].
    intros Hst. destruct Hp as [_ Hn].
    rewrite filter_app, length_app, Hn, (IH (S k) Hst).
    simpl seq. simpl filter.
    now destruct (qualifies w k key sym p).
  - intros Hz. revert k; induction n as [|n IH]; intros k; [reflexivity|].
    rewrite passes_S.
    assert (Hq : qualifies w k key sym p = false).
    { unfold qualifies. destruct (fetch_data w k sym key); auto.
      destruct (last (map Some l) None); auto. now rewrite Hz. }
    pose proof (pass_shape w k key sym p) as Hp. cbv zeta in Hp.
    destruct (snd (pass w k key sym p)) eqn:Hgo; cbn [fst snd].
    + destruct Hp as [_ Hn]. rewrite Hq in Hn.
      rewrite filter_app, IH, app_nil_r.
      now destruct (filter is_notification (fst (pass w k key sym p))).
    + destruct Hp as (pre & e & -> & _ & Hpre).
      now rewrite filter_app, Hpre.
Qed.

Lemma desktop_alert_repeats_witness :
  List.length
    (filter is_notification
       (fst (passes
               {| fetch_data := fun _ _ _ => Closes [151%float];
                  notify := fun _ => None;
                  format_2f := fun _ => "#.##" |}
               3 0 "KEY" "AAPL" 150.0%float)))
  = List.length
      (filter
         (fun j =>
            qualifies
              {| fetch_data := fun _ _ _ => Closes [151%float];
                 notify := fun _ => None;
                 format_2f := fun _ => "#.##" |}
              j "KEY" "AAPL" 150.0%float)
         (seq 0 3)).
Proof.
  exact (proj1 (desktop_alert_repeats
                  {| fetch_data := fun _ _ _ => Closes [151%float];
                     notify := fun _ => None;
                     format_2f := fun _ => "#.##" |}
                  3 0 "KEY" "AAPL" 150.0%float) eq_refl).
Defined.

End AppAlphaFacts.

(** ** Clearing the history, and setting an alert while monitoring *)

Module SameRun.
Import AppCode Obs Inv StepFacts Cycle Buttons Once Trigger Source Session
  Examples MoreExamples.

(** X17. Clearing the history re-arms nothing.  "Clear alert history"
    exists only while the list has alerts; it then empties the history
    and never touches the alerts, whose flags stay set: in any number of
    later cycles a triggered alert stays as it is, and the records that
    appear in the emptied history for an id are at most the alerts with
    that id that had not fired yet. *)
Theorem clearing_history_rearms_nothing (w : World) (n : nat) (s : State) :
  (alerts s = [] -> clear_alert_history s = s)
  /\ alerts (clear_alert_history s) = alerts s
  /\ (alerts s <> [] ->
      alert_history (clear_alert_history s) = []
      /\ forall k,
           notified k (alert_history (cycles w n (clear_alert_history s)))
           <= pending k (alerts s))
  /\ (forall i a,
         nth_error (alerts s) i = Some a -> triggered a = true ->
         nth_error (alerts (cycles w n (clear_alert_history s))) i
         = Some a).
Proof.
  split; [|split; [|split]].
  - intros E. unfold clear_alert_history. now rewrite E.
  - apply clear_alert_history_alerts.
  - intros Hne.
    assert (Hh : alert_history (clear_alert_history s) = []).
    { unfold clear_alert_history.
      destruct (alerts s); [congruence | reflexivity]. }
    split; [exact Hh|]. intros k.
    pose proof (conservation_cycles w n (clear_alert_history s) k) as H.
    rewrite Hh, clear_alert_history_alerts in H.
    unfold notified at 2 in H. simpl in H. lia.
  - intros i a Hi Ht.
    assert (Hi0 : nth_error (alerts (clear_alert_history s)) i = Some a)
      by (now rewrite clear_alert_history_alerts).
    destruct (keeps_cycles w n _ i Hi0) as (a' & Hi' & [-> | (Hf & _)]);
      [exact Hi' | congruence].
Qed.

Lemma clearing_history_rearms_nothing_witness :
  alert_history
    (clear_alert_history
       (cycles (w_seq [151%float]) 1 (watching [aapl_150]))) = [].
Proof.
  refine (proj1 (proj1 (proj2 (proj2
            (clearing_history_rearms_nothing (w_seq [151%float]) 2
               (cycles (w_seq [151%float]) 1 (watching [aapl_150]))))) _)).
  discriminate.
Defined.

(** The flag that a cycle gives to an alert whose symbol is answered with
    the same price throughout. *)
Lemma cycle_flag (w : World) (i : nat) (s : State) (a : Alert) (p : float) :
  nth_error (alerts s) i = Some a ->
  (forall t, fetched w t (symbol a) = Some p) ->
  triggered_in i (check_alerts_and_notify w s)
  = triggered a || trigger_of a p.
Proof.
  intros Hi Hp.
  destruct (cycle_visits w i s Hi) as (s_i & Hsi & Heq).
  unfold triggered_in at 1. rewrite Heq.
  fold (triggered_in i (check_alert w i s_i)).
  destruct (triggered a) eqn:Ht; simpl.
  - unfold check_alert, triggered_in. now rewrite Hsi, Ht, Hsi.
  - apply check_alert_flag; auto.
Qed.

(** The first tab with data and a valid submission. *)
Lemma first_tabs_accepts (w : World) (u : Widgets) (s : State)
    (e : string) (p : float) (t : Radio) :
  click u = SetAlert e p t ->
  Py.truthy e = true -> Py.gt p 0 = true ->
  frame_of (yf_download w (ticks s) (symbol_select u) "7d" "5m") <> [] ->
  alerts (first_tabs w u s)
  = alerts s
    ++ [ {| id := Z.of_nat (List.length (alerts s)) + 1;
            symbol := symbol_select u; target_price := p;
            alert_type := label t; recipient_email := e;
            triggered := false;
            created_at := utcnow_isoformat w (S (ticks s));
            triggered_at := None |} ]
  /\ running (first_tabs w u s) = running s.
Proof.
  intros Hc He Hp Hd. split; [|rewrite first_tabs_running; now rewrite Hc].
  unfold first_tabs. rewrite Hc.
  pose proof (fetch_intraday_frame w (symbol_select u) "7d" "5m" s) as Hfr.
  pose proof (fetch_intraday_state w (symbol_select u) "7d" "5m" s) as Hst.
  destruct (fetch_intraday w (symbol_select u) "7d" "5m" s) as [df s2].
  simpl in Hfr, Hst. destruct Hst as (Ha & _ & _ & Hk & _).
  rewrite <- Hfr in Hd.
  destruct df as [|r df]; [contradiction|]. simpl.
  now rewrite set_alert_alerts, He, Hp, Ha, Hk.
Qed.

(** X18. An alert set while the monitoring runs is evaluated at once.
    "Set Alert" needs data for the selected symbol: if the download of
    the first tab gives no frame, the form does not exist and the list
    stays as it is.  With data, a valid submission is added at the end
    of the list, and if the monitoring runs (and the second tab does not
    raise) the monitoring block of the same run already evaluates it:
    with the price of its symbol at [q], the new alert ends the run
    triggered exactly when [q] is at or beyond its target. *)
Theorem alert_is_evaluated_when_set (w : World) (u : Widgets) (s : State)
    (e : string) (p : float) (t : Radio) :
  click u = SetAlert e p t ->
  (frame_of (yf_download w (ticks s) (symbol_select u) "7d" "5m") = [] ->
   alerts (first_tabs w u s) = alerts s)
  /\ (forall q,
         Py.truthy e = true -> Py.gt p 0 = true ->
         frame_of (yf_download w (ticks s) (symbol_select u) "7d" "5m")
         <> [] ->
         (forall e',
             yf_download w (ticks (first_tabs w u s)) (hist_symbol u)
               (hist_period u) (hist_interval u) <> Raised e') ->
         running s = true ->
         (forall t', fetched w t' (symbol_select u) = Some q) ->
         List.length (alerts (rerun w u s)) = S (List.length (alerts s))
         /\ triggered_in (List.length (alerts s)) (rerun w u s)
            = match t with
              | rises => Py.ge q p
              | falls => Py.le q p
              end).
Proof.
  intros Hc. split.
  - intros Hd. unfold first_tabs. rewrite Hc.
    pose proof (fetch_intraday_frame w (symbol_select u) "7d" "5m" s) as Hfr.
    pose proof (fetch_intraday_state w (symbol_select u) "7d" "5m" s) as Hst.
    destruct (fetch_intraday w (symbol_select u) "7d" "5m" s) as [df s2].
    simpl in Hfr, Hst. rewrite Hd in Hfr. subst df. simpl. tauto.
  - intros q He Hp Hd Hh Hrun Hq.
    destruct (first_tabs_accepts w u s Hc He Hp Hd) as [Ea Er].
    set (new := {| id := Z.of_nat (List.length (alerts s)) + 1;
                   symbol := symbol_select u; target_price := p;
                   alert_type := label t; recipient_email := e;
                   triggered := false;
                   created_at := utcnow_isoformat w (S (ticks s));
                   triggered_at := None |}) in *.
    assert (E : rerun w u s
                = check_alerts_and_notify w (tick (first_tabs w u s))).
    { unfold rerun.
      destruct (yf_download w (ticks (first_tabs w u s)) (hist_symbol u)
                  (hist_period u) (hist_interval u)) as [e'| |df] eqn:D;
        [now destruct (Hh e') | |];
        rewrite Hc; simpl; unfold monitoring; simpl;
        now rewrite Er, Hrun. }
    rewrite E. split.
    + pose proof (length_cycles w 1 (tick (first_tabs w u s))) as L.
      change (cycles w 1 (tick (first_tabs w u s)))
        with (check_alerts_and_notify w (tick (first_tabs w u s))) in L.
      rewrite L. simpl. rewrite Ea, length_app. simpl. lia.
    + assert (Hi : nth_error (alerts (tick (first_tabs w u s)))
                     (List.length (alerts s)) = Some new).
      { simpl. rewrite Ea, nth_error_app2, Nat.sub_diag by lia.
        reflexivity. }
      rewrite (cycle_flag w _ _ Hi (p := q)) by exact Hq. simpl.
      destruct t.
      * now apply trigger_of_rises.
      * now apply trigger_of_falls.
Qed.

Lemma alert_is_evaluated_when_set_witness :
  triggered_in 0
    (rerun (w_seq [151%float])
       (ui "AAPL" (SetAlert "me@example.org" 150.0%float rises))
       (watching []))
  = Py.ge 151 150.0.
Proof.
  refine (proj2 (proj2 (@alert_is_evaluated_when_set (w_seq [151%float])
                   (ui "AAPL" (SetAlert "me@example.org" 150.0%float rises))
                   (watching []) "me@example.org" 150.0%float rises eq_refl)
                   151%float eq_refl eq_refl _ _ eq_refl _)).
  - discriminate.
  - intros e'. discriminate.
  - intros t'. destruct t' as [|[|t']]; reflexivity.
Defined.

End SameRun.
